(** * Users and posts over HTTP: validation, storage and status codes

  A shallow embedding of the route handlers of the fastify-crud notes
  ([server.js], both listings), of the demo application
  ([demo-fastify/app.js]) and of the validation schema
  ([demo-fastify/schemas/user.js]), together with the parts of the
  JavaScript language, of the schema-validation library, of the ORM client
  and of the web framework that the handlers call.

  Conventions.
  - A JavaScript string is a [string]; each character is one code unit.
  - A JavaScript number is a [Js.number]; an integer is kept as a [Z], and
    [parseInt] rounds what it reads to double precision, so that it is
    exact below 2^53. The model has one zero.
  - The relational table of a model is a finite map from the primary key
    to the row, [gmap Z _]; the [autoincrement()] default is a sequence
    kept next to the tables. An [Int] column holds 32 bits: the sequence
    ends at 2147483647, and the store refuses a larger number.
  - An [async] handler is a computation in the monad [Async.M]: it
    threads the database and either returns or throws.
  - The email format test of the validation library is a parameter of the
    schemas.

  The libraries behave as they document. [parse] throws a [ZodError] that
  lists the issues of every field. The ORM rejects ill-typed arguments
  before it queries the store, and raises P2002 on a unique constraint,
  P2003 on a foreign key, P2020 on a number that does not fit its column
  and P2025 on a record that is not there. The framework answers 200
  unless the handler sets a status, and 500 when the handler throws. *)

From Stdlib Require Import Ascii.
From stdpp Require Import gmap strings list fin_maps.

#[local] Set Warnings "-register-all".

Open Scope Z_scope.
Open Scope string_scope.

(** ** JavaScript values *)

Module Js.

(** A number: an integer, a finite number that is not an integer (given by
    its floor: [Frac f] lies strictly between [f] and [f + 1]), [NaN], or
    an infinity. *)
Inductive number :=
| Int (z : Z)
| Frac (floor : Z)
| NaN
| Inf (negative : bool).

(** What [JSON.parse] produces for a request body, plus [undefined] for a
    request without a body and for a missing property. *)
Inductive value :=
| Undefined
| Null
| Bool (b : bool)
| Num (n : number)
| Str (s : string)
| Arr (items : list value)
| Obj (fields : gmap string value).

#[global] Instance number_eq_dec : EqDecision number.
Proof. solve_decision. Defined.

(** [v[k]] for the property names the handlers read ([name], [email],
    [title], [content], [userId], [address]): only an object has them. *)
Definition getProp (v : value) (k : string) : value :=
  match v with
  | Obj fields => default Undefined (fields !! k)
  | _ => Undefined
  end.

(** [Number.isInteger]. *)
Definition isInteger (n : number) : bool :=
  match n with Int _ => true | _ => false end.

(** [n > 0]. *)
Definition isPositive (n : number) : bool :=
  match n with
  | Int z => bool_decide (0 < z)
  | Frac f => bool_decide (0 <= f)
  | NaN => false
  | Inf negative => negb negative
  end.

(** Unary minus. *)
Definition negate (n : number) : number :=
  match n with
  | Int z => Int (- z)
  | Frac f => Frac (- f - 1)
  | NaN => NaN
  | Inf negative => Inf (negb negative)
  end.

(** The number value of a natural number [m]: [m] itself below 2^53; from
    there on the nearest number with 53 significant bits, the even one of
    two that are as near; and [Infinity] from 2^1024 on. *)
Definition toNumber (m : Z) : number :=
  if bool_decide (m < 9007199254740992) then Int m
  else
    let e := Z.log2 m - 52 in
    let q := Z.shiftr m e in
    let r := m - Z.shiftl q e in
    let half := Z.shiftl 1 (e - 1) in
    let q' := if bool_decide (r < half) then q
              else if bool_decide (half < r) then q + 1
              else if Z.even q then q else q + 1 in
    if bool_decide (Z.shiftl q' e < 2 ^ 1024) then Int (Z.shiftl q' e)
    else Inf false.

(** *** [parseInt(string)] with no radix argument *)

(** White space that [parseInt] skips (the code units below 256). *)
Definition isWhiteSpace (c : ascii) : bool :=
  let n := Z.of_N (N_of_ascii c) in
  bool_decide (9 <= n <= 13) || bool_decide (n = 32) || bool_decide (n = 160).

Fixpoint trimStart (s : string) : string :=
  match s with
  | String c rest => if isWhiteSpace c then trimStart rest else s
  | EmptyString => EmptyString
  end.

(** The value of [c] as a digit of the given radix, if it is one. *)
Definition digitValue (radix : Z) (c : ascii) : option Z :=
  let n := Z.of_N (N_of_ascii c) in
  let d :=
    if bool_decide (48 <= n <= 57) then Some (n - 48)
    else if bool_decide (97 <= n <= 122) then Some (n - 87)
    else if bool_decide (65 <= n <= 90) then Some (n - 55)
    else None in
  match d with
  | Some v => if bool_decide (v < radix) then Some v else None
  | None => None
  end.

(** The mathematical value of the longest prefix of [s] made of digits of
    the radix; [acc] is the value read so far, [None] before the first
    digit. *)
Fixpoint digitsPrefix (radix : Z) (s : string) (acc : option Z) : option Z :=
  match s with
  | String c rest =>
      match digitValue radix c with
      | Some d => digitsPrefix radix rest (Some (radix * default 0 acc + d))
      | None => acc
      end
  | EmptyString => acc
  end.

(** An optional sign. *)
Definition stripSign (s : string) : Z * string :=
  match s with
  | String "-" rest => (-1, rest)
  | String "+" rest => (1, rest)
  | _ => (1, s)
  end.

(** The radix: 16 after [0x] or [0X], which is removed, and 10 otherwise. *)
Definition stripPrefix (s : string) : Z * string :=
  match s with
  | String "0" (String "x" rest) => (16, rest)
  | String "0" (String "X" rest) => (16, rest)
  | _ => (10, s)
  end.

Definition parseInt (s : string) : number :=
  let '(sign, s) := stripSign (trimStart s) in
  let '(radix, s) := stripPrefix s in
  match digitsPrefix radix s None with
  | Some m => if bool_decide (sign < 0) then negate (toNumber m) else toNumber m
  | None => NaN
  end.

(** *** Decimal numerals *)

Definition isDecimalDigit (c : ascii) : bool :=
  bool_decide (48 <= Z.of_N (N_of_ascii c) <= 57).

Fixpoint allDecimalDigits (s : string) : bool :=
  match s with
  | String c rest => isDecimalDigit c && allDecimalDigits rest
  | EmptyString => true
  end.

Definition startsWithDecimalDigit (s : string) : bool :=
  match s with
  | String c _ => isDecimalDigit c
  | EmptyString => false
  end.

(** The number that a string of decimal digits denotes, read after [acc]. *)
Fixpoint decimalFrom (acc : Z) (digits : string) : Z :=
  match digits with
  | String c rest => decimalFrom (10 * acc + (Z.of_N (N_of_ascii c) - 48)) rest
  | EmptyString => acc
  end.

Definition decimalValue (digits : string) : Z := decimalFrom 0 digits.

#[global] Arguments getProp : simpl never.

End Js.

(** ** The schema-validation library *)

Module Zod.

Inductive issueCode := invalid_type | too_small | invalid_string.

(** One entry of [ZodError.errors]. *)
Record ZodIssue := {
  code : issueCode;
  path : list string;
  message : string;
  minimum : option Z
}.

(** [.min(n, msg)] and [.email(msg)] on a string schema; the email check
    carries the library's format test. *)
Inductive stringCheck :=
| min (n : Z) (msg : string)
| email (format : string → bool) (msg : string).

(** [.int(msg)] and [.positive()] on a number schema. *)
Inductive numberCheck :=
| int (msg : string)
| positive.

Inductive schema :=
| string (checks : list stringCheck)
| number (checks : list numberCheck)
| optional (inner : schema).

(** [z.object({...})]: the shape, in declaration order. *)
Definition object := list (String.string * schema).

(** The library's name for the type of a value, used in its messages. *)
Definition parsedType (v : Js.value) : String.string :=
  match v with
  | Js.Undefined => "undefined"
  | Js.Null => "null"
  | Js.Bool _ => "boolean"
  | Js.Num Js.NaN => "nan"
  | Js.Num _ => "number"
  | Js.Str _ => "string"
  | Js.Arr _ => "array"
  | Js.Obj _ => "object"
  end.

Definition invalidType (expected : String.string) (p : list String.string)
    (v : Js.value) : ZodIssue :=
  {| code := invalid_type; path := p;
     message := match v with
                | Js.Undefined => "Required"
                | _ => "Expected " +:+ expected +:+ ", received " +:+ parsedType v
                end;
     minimum := None |}.

Definition checkString (p : list String.string) (s : String.string)
    (c : stringCheck) : list ZodIssue :=
  match c with
  | min n msg =>
      if bool_decide (Z.of_nat (String.length s) < n)
      then [ {| code := too_small; path := p; message := msg; minimum := Some n |} ]
      else []
  | email format msg =>
      if format s then []
      else [ {| code := invalid_string; path := p; message := msg; minimum := None |} ]
  end.

Definition checkNumber (p : list String.string) (n : Js.number)
    (c : numberCheck) : list ZodIssue :=
  match c with
  | int msg =>
      if Js.isInteger n then []
      else [ {| code := invalid_type; path := p; message := msg; minimum := None |} ]
  | positive =>
      if Js.isPositive n then []
      else [ {| code := too_small; path := p;
                message := "Number must be greater than 0"; minimum := Some 0 |} ]
  end.

(** The issues of one field. A value of the wrong type yields one issue and
    its checks are not run; otherwise every check of the field is run. *)
Fixpoint parseField (sch : schema) (p : list String.string) (v : Js.value)
    : list ZodIssue :=
  match sch with
  | string checks =>
      match v with
      | Js.Str s => concat (map (checkString p s) checks)
      | _ => [invalidType "string" p v]
      end
  | number checks =>
      match v with
      | Js.Num Js.NaN => [invalidType "number" p v]
      | Js.Num n => concat (map (checkNumber p n) checks)
      | _ => [invalidType "number" p v]
      end
  | optional inner =>
      match v with
      | Js.Undefined => []
      | _ => parseField inner p v
      end
  end.

(** The issues of every field of the shape, in order. *)
Definition objectIssues (shape : object) (v : Js.value) : list ZodIssue :=
  concat (map (λ kf, parseField kf.2 [kf.1] (Js.getProp v kf.1)) shape).

(** The parsed object keeps the keys of the shape that are present and
    drops every other key. *)
Definition keep (k : String.string) (x : Js.value)
    (fields : gmap String.string Js.value) : gmap String.string Js.value :=
  match x with
  | Js.Undefined => fields
  | _ => <[k := x]> fields
  end.

Definition strip (shape : object) (v : Js.value) : gmap String.string Js.value :=
  foldr (λ kf, keep kf.1 (Js.getProp v kf.1)) ∅ shape.

(** [schema.parse(v)]: the parsed value, or the issues that the thrown
    [ZodError] carries. *)
Definition parse (shape : object) (v : Js.value) : list ZodIssue + Js.value :=
  match v with
  | Js.Obj _ =>
      match objectIssues shape v with
      | [] => inr (Js.Obj (strip shape v))
      | issues => inl issues
      end
  | _ => inl [invalidType "object" [] v]
  end.

End Zod.

(** ** The ORM client over the relational store *)

Module Prisma.

(** [model User]: [id Int @id @default(autoincrement())], [name String],
    [email String @unique]. The relation field [posts] is not a column. *)
Module User.
Record t := { id : Z; name : string; email : string }.
End User.

(** [model Post] of the listing with the relation: [id], [title],
    [content], [createdAt DateTime @default(now())] and the foreign key
    [userId] referencing [User.id]. *)
Module Post.
Record t := { id : Z; title : string; content : string; createdAt : Z; userId : Z }.
End Post.

(** The two tables, keyed by primary key, and the sequences behind the
    [autoincrement()] defaults. *)
Record Db := {
  users : gmap Z User.t;
  posts : gmap Z Post.t;
  User_id_seq : Z;
  Post_id_seq : Z
}.

(** A freshly migrated database. *)
Definition emptyDb : Db :=
  {| users := ∅; posts := ∅; User_id_seq := 1; Post_id_seq := 1 |}.

Definition with_users (db : Db) (us : gmap Z User.t) : Db :=
  {| users := us; posts := posts db;
     User_id_seq := User_id_seq db; Post_id_seq := Post_id_seq db |}.

Definition with_posts (db : Db) (ps : gmap Z Post.t) : Db :=
  {| users := users db; posts := ps;
     User_id_seq := User_id_seq db; Post_id_seq := Post_id_seq db |}.

(** [nextval] of a sequence: the value is consumed whether or not the
    statement that asked for it succeeds. *)
Definition next_User_id (db : Db) : Db :=
  {| users := users db; posts := posts db;
     User_id_seq := User_id_seq db + 1; Post_id_seq := Post_id_seq db |}.

Definition next_Post_id (db : Db) : Db :=
  {| users := users db; posts := posts db;
     User_id_seq := User_id_seq db; Post_id_seq := Post_id_seq db + 1 |}.

(** The codes of [PrismaClientKnownRequestError] that these queries can
    raise: unique constraint failed, foreign key constraint failed, value
    out of range for the type of the column, and a required record was not
    found. *)
Inductive knownCode := P2002 | P2003 | P2020 | P2025.

(** An error of the store that has no code of its own is raised as a
    [PrismaClientUnknownRequestError]. *)
Inductive error :=
| PrismaClientKnownRequestError (code : knownCode)
| PrismaClientUnknownRequestError
| PrismaClientValidationError.

(** A query either fails with an error, leaving the tables as they were, or
    yields its result. *)
Definition query (A : Type) : Type := Db → (error + A) * Db.

Definition known {A} (code : knownCode) (db : Db) : (error + A) * Db :=
  (inl (PrismaClientKnownRequestError code), db).

Definition unknown {A} (db : Db) : (error + A) * Db :=
  (inl PrismaClientUnknownRequestError, db).

Definition invalid {A} (db : Db) : (error + A) * Db :=
  (inl PrismaClientValidationError, db).

(** An [Int] argument. The query engine reads a finite number as a 64-bit
    integer and leaves out the fraction of a number that is not an integer;
    a number that does not fit 64 bits, [NaN] and the infinities are
    rejected like an argument of the wrong type. *)
Definition intValue (n : Js.number) : option Z :=
  let fits (z : Z) :=
    if bool_decide (-9223372036854775808 ≤ z ≤ 9223372036854775807)%Z
    then Some z else None in
  match n with
  | Js.Int z => fits z
  | Js.Frac f => fits (if bool_decide (0 ≤ f)%Z then f else f + 1)
  | _ => None
  end.

(** What an [Int] column holds: 32 bits. The store refuses any other
    integer (P2020). *)
Definition isInt32 (z : Z) : bool :=
  bool_decide (-2147483648 ≤ z ≤ 2147483647)%Z.

(** The sequence behind an [Int] column ends at 2147483647; asking for a
    value after that is an error of the store. *)
Definition exhausted (seq : Z) : bool := bool_decide (2147483647 < seq)%Z.

(** An optional [String] argument of [data]: [undefined] leaves the column
    alone, a string sets it, anything else is rejected by the client. *)
Definition optionalString (v : Js.value) : option (option string) :=
  match v with
  | Js.Undefined => Some None
  | Js.Str s => Some (Some s)
  | _ => None
  end.

(** An optional [Int] argument of [data]: [undefined] leaves the column
    alone, a number sets it to the integer it is read as, anything else is
    rejected by the client. *)
Definition optionalInt (v : Js.value) : option (option Z) :=
  match v with
  | Js.Undefined => Some None
  | Js.Num n => Some <$> intValue n
  | _ => None
  end.

(** Some row other than [self] already has this email. *)
Definition emailTaken (e : string) (self : option Z) (us : gmap Z User.t) : bool :=
  bool_decide (map_Exists (λ i u, User.email u = e ∧ Some i ≠ self) us).

(** Some post belongs to user [i]. *)
Definition hasPosts (i : Z) (ps : gmap Z Post.t) : bool :=
  bool_decide (map_Exists (λ _ p, Post.userId p = i) ps).

(** *** [prisma.user] *)

(** [prisma.user.create({ data: { name, email } })] *)
Definition user_create (name email : Js.value) : query User.t := λ db,
  match name, email with
  | Js.Str n, Js.Str e =>
      let i := User_id_seq db in
      if exhausted i then unknown db
      else
        let db1 := next_User_id db in
        if emailTaken e None (users db) then known P2002 db1
        else if bool_decide (is_Some (users db !! i)) then known P2002 db1
        else
          let u := {| User.id := i; User.name := n; User.email := e |} in
          (inr u, with_users db1 (<[i := u]> (users db)))
  | _, _ => invalid db
  end.

(** [prisma.user.findMany()] *)
Definition user_findMany : query (list User.t) := λ db,
  (inr (map_to_list (users db)).*2, db).

(** [prisma.user.findUnique({ where: { id } })]: [null] is [None]. *)
Definition user_findUnique (id : Js.number) : query (option User.t) := λ db,
  match intValue id with
  | Some i => if isInt32 i then (inr (users db !! i), db) else known P2020 db
  | None => invalid db
  end.

(** [prisma.user.update({ where: { id }, data: { name, email } })] *)
Definition user_update (id : Js.number) (name email : Js.value) : query User.t := λ db,
  match intValue id, optionalString name, optionalString email with
  | Some i, Some n, Some e =>
      if isInt32 i then
        match users db !! i with
        | None => known P2025 db
        | Some old =>
            let u := {| User.id := User.id old;
                        User.name := default (User.name old) n;
                        User.email := default (User.email old) e |} in
            if emailTaken (User.email u) (Some i) (users db) then known P2002 db
            else (inr u, with_users db (<[i := u]> (users db)))
        end
      else known P2020 db
  | _, _, _ => invalid db
  end.

(** [prisma.user.delete({ where: { id } })]: the relation has no
    [onDelete], so a user who owns posts cannot be deleted. *)
Definition user_delete (id : Js.number) : query User.t := λ db,
  match intValue id with
  | Some i =>
      if isInt32 i then
        match users db !! i with
        | None => known P2025 db
        | Some old =>
            if hasPosts i (posts db) then known P2003 db
            else (inr old, with_users db (delete i (users db)))
        end
      else known P2020 db
  | None => invalid db
  end.

(** *** [prisma.post] *)

(** [prisma.post.create({ data: { title, content, userId } })], at time
    [now]. A [userId] that does not fit the column is refused before a
    value of the sequence is asked for. *)
Definition post_create (now : Z) (title content userId : Js.value) : query Post.t := λ db,
  match title, content, optionalInt userId with
  | Js.Str t, Js.Str c, Some (Some uid) =>
      if isInt32 uid then
        let i := Post_id_seq db in
        if exhausted i then unknown db
        else
          let db1 := next_Post_id db in
          if bool_decide (is_Some (users db !! uid)) then
            if bool_decide (is_Some (posts db !! i)) then known P2002 db1
            else
              let p := {| Post.id := i; Post.title := t; Post.content := c;
                          Post.createdAt := now; Post.userId := uid |} in
              (inr p, with_posts db1 (<[i := p]> (posts db)))
          else known P2003 db1
      else known P2020 db
  | _, _, _ => invalid db
  end.

(** The [include: { user: true }] of the post queries. *)
Definition withUser (db : Db) (p : Post.t) : Post.t * option User.t :=
  (p, users db !! Post.userId p).

(** [prisma.post.findMany({ include: { user: true } })] *)
Definition post_findMany : query (list (Post.t * option User.t)) := λ db,
  (inr (withUser db <$> (map_to_list (posts db)).*2), db).

(** [prisma.post.findUnique({ where: { id }, include: { user: true } })] *)
Definition post_findUnique (id : Js.number) : query (option (Post.t * option User.t)) := λ db,
  match intValue id with
  | Some i =>
      if isInt32 i then (inr (withUser db <$> posts db !! i), db) else known P2020 db
  | None => invalid db
  end.

(** [prisma.post.update({ where: { id }, data: { title, content, userId } })] *)
Definition post_update (id : Js.number) (title content userId : Js.value) : query Post.t := λ db,
  match intValue id, optionalString title, optionalString content, optionalInt userId with
  | Some i, Some t, Some c, Some uid =>
      if isInt32 i && default true (isInt32 <$> uid) then
        match posts db !! i with
        | None => known P2025 db
        | Some old =>
            let p := {| Post.id := Post.id old;
                        Post.title := default (Post.title old) t;
                        Post.content := default (Post.content old) c;
                        Post.createdAt := Post.createdAt old;
                        Post.userId := default (Post.userId old) uid |} in
            if bool_decide (is_Some (users db !! Post.userId p))
            then (inr p, with_posts db (<[i := p]> (posts db)))
            else known P2003 db
        end
      else known P2020 db
  | _, _, _, _ => invalid db
  end.

(** [prisma.post.delete({ where: { id } })] *)
Definition post_delete (id : Js.number) : query Post.t := λ db,
  match intValue id with
  | Some i =>
      if isInt32 i then
        match posts db !! i with
        | None => known P2025 db
        | Some old => (inr old, with_posts db (delete i (posts db)))
        end
      else known P2020 db
  | None => invalid db
  end.

End Prisma.

(** ** Asynchronous handlers: database state and exceptions *)

Module Async.

(** What a handler can throw. *)
Inductive Exn :=
| ZodError (errors : list Zod.ZodIssue)
| PrismaError (e : Prisma.error)
| TypeError.

Definition M (A : Type) : Type := Prisma.Db → (Exn + A) * Prisma.Db.

#[global] Instance M_ret : MRet M := λ A a db, (inr a, db).

#[global] Instance M_bind : MBind M := λ A B k m db,
  match m db with
  | (inr a, db') => k a db'
  | (inl e, db') => (inl e, db')
  end.

Definition throw {A} (e : Exn) : M A := λ db, (inl e, db).

(** [try { body } catch (error) { handler }] *)
Definition try_catch {A} (body : M A) (handler : Exn → M A) : M A := λ db,
  match body db with
  | (inr a, db') => (inr a, db')
  | (inl e, db') => handler e db'
  end.

(** [await] of a query: a rejected promise throws. *)
Definition await {A} (q : Prisma.query A) : M A := λ db,
  match q db with
  | (inr a, db') => (inr a, db')
  | (inl e, db') => (inl (PrismaError e), db')
  end.

(** [schema.parse(v)] *)
Definition parse (shape : Zod.object) (v : Js.value) : M Js.value :=
  match Zod.parse shape v with
  | inr parsed => mret parsed
  | inl issues => throw (ZodError issues)
  end.

(** The source of a destructuring [const { a, b } = v]: [undefined] and
    [null] cannot be destructured. *)
Definition destructure (v : Js.value) : M Js.value :=
  match v with
  | Js.Undefined | Js.Null => throw TypeError
  | _ => mret v
  end.

End Async.

(** ** The web framework *)

Module Fastify.

(** What is sent as the body of a response. *)
Inductive Payload :=
| User (user : Prisma.User.t)
| Users (users : list Prisma.User.t)
| Post (post : Prisma.Post.t)
| PostWithUser (post : Prisma.Post.t * option Prisma.User.t)
| PostsWithUser (posts : list (Prisma.Post.t * option Prisma.User.t))
| Created (message : string) (user : Prisma.User.t)
| Message (message : string)
| Issues (errors : list Zod.ZodIssue)
| Error (error : Async.Exn)
| Nothing.

Record Reply := { statusCode : Z; payload : Payload }.

(** [reply.status(code).send(payload)] *)
Definition status_send (code : Z) (p : Payload) : Async.M Reply :=
  mret {| statusCode := code; payload := p |}.

(** [reply.send(payload)], and [return payload] from the handler: the
    status code stays at its default. *)
Definition send (p : Payload) : Async.M Reply := status_send 200 p.

(** [error.errors || error] *)
Definition errors_or_error (error : Async.Exn) : Payload :=
  match error with
  | Async.ZodError errors => Issues errors
  | _ => Error error
  end.

(** A handler that throws is answered by the default error handler: the
    error has no status code of its own, so the response is a 500. *)
Definition run (handler : Async.M Reply) (db : Prisma.Db) : Reply * Prisma.Db :=
  match handler db with
  | (inr reply, db') => (reply, db')
  | (inl e, db') => ({| statusCode := 500; payload := Error e |}, db')
  end.

End Fastify.

(** ** [demo-fastify/schemas/user.js] *)

Module Schemas.
Section schemas.
Context (emailFormat : string → bool).

Definition createUserSchema : Zod.object :=
  [ ("name", Zod.string [Zod.min 4 "Name must be at least 4 characters"]);
    ("email", Zod.string [Zod.email emailFormat "Invalid email format"]);
    ("address", Zod.optional (Zod.string [])) ].

End schemas.
End Schemas.

(** ** [server.js]: the user routes of the first listing and the post
    routes of the second *)

Module Server.
Import Async Fastify.

Section routes.
Context (emailFormat : string → bool).

Definition createUserSchema : Zod.object :=
  [ ("name", Zod.string [Zod.min 3 "Name must be at least 3 characters long"]);
    ("email", Zod.string [Zod.email emailFormat "Invalid email address"]) ].

Definition createPostSchema : Zod.object :=
  [ ("title", Zod.string [Zod.min 3 "Title must be at least 3 characters long"]);
    ("content", Zod.string [Zod.min 10 "Content must be at least 10 characters long"]);
    ("userId", Zod.number [Zod.int "User ID must be an integer"; Zod.positive]) ].

(** [fastify.post('/users', ...)] *)
Definition post_users (body : Js.value) : M Reply :=
  try_catch
    (parsed ← parse createUserSchema body;
     user ← await (Prisma.user_create (Js.getProp parsed "name") (Js.getProp parsed "email"));
     status_send 201 (User user))
    (λ error, status_send 400 (errors_or_error error)).

(** [fastify.get('/users', ...)] *)
Definition get_users : M Reply :=
  users ← await Prisma.user_findMany;
  send (Users users).

(** [fastify.get('/users/:id', ...)] *)
Definition get_users_id (id : string) : M Reply :=
  user ← await (Prisma.user_findUnique (Js.parseInt id));
  match user with
  | Some user => send (User user)
  | None => status_send 404 (Message "User not found")
  end.

(** [fastify.put('/users/:id', ...)] *)
Definition put_users_id (id : string) (body : Js.value) : M Reply :=
  body ← destructure body;
  let name := Js.getProp body "name" in
  let email := Js.getProp body "email" in
  user ← await (Prisma.user_update (Js.parseInt id) name email);
  send (User user).

(** [fastify.delete('/users/:id', ...)] *)
Definition delete_users_id (id : string) : M Reply :=
  _ ← await (Prisma.user_delete (Js.parseInt id));
  status_send 204 Nothing.

(** [fastify.post('/posts', ...)]; [now] is the time of the insertion. *)
Definition post_posts (now : Z) (body : Js.value) : M Reply :=
  try_catch
    (parsed ← parse createPostSchema body;
     post ← await (Prisma.post_create now (Js.getProp parsed "title")
                     (Js.getProp parsed "content") (Js.getProp parsed "userId"));
     status_send 201 (Post post))
    (λ error, status_send 400 (errors_or_error error)).

(** [fastify.get('/posts', ...)] *)
Definition get_posts : M Reply :=
  posts ← await Prisma.post_findMany;
  send (PostsWithUser posts).

(** [fastify.get('/posts/:id', ...)] *)
Definition get_posts_id (id : string) : M Reply :=
  post ← await (Prisma.post_findUnique (Js.parseInt id));
  match post with
  | Some post => send (PostWithUser post)
  | None => status_send 404 (Message "Post not found")
  end.

(** [fastify.put('/posts/:id', ...)] *)
Definition put_posts_id (id : string) (body : Js.value) : M Reply :=
  body ← destructure body;
  let title := Js.getProp body "title" in
  let content := Js.getProp body "content" in
  let userId := Js.getProp body "userId" in
  post ← await (Prisma.post_update (Js.parseInt id) title content userId);
  send (Post post).

(** [fastify.delete('/posts/:id', ...)] *)
Definition delete_posts_id (id : string) : M Reply :=
  _ ← await (Prisma.post_delete (Js.parseInt id));
  status_send 204 Nothing.

(** A request that matches one of the routes. *)
Inductive Request :=
| POST_users (body : Js.value)
| GET_users
| GET_users_id (id : string)
| PUT_users_id (id : string) (body : Js.value)
| DELETE_users_id (id : string)
| POST_posts (now : Z) (body : Js.value)
| GET_posts
| GET_posts_id (id : string)
| PUT_posts_id (id : string) (body : Js.value)
| DELETE_posts_id (id : string).

Definition route (req : Request) : M Reply :=
  match req with
  | POST_users body => post_users body
  | GET_users => get_users
  | GET_users_id id => get_users_id id
  | PUT_users_id id body => put_users_id id body
  | DELETE_users_id id => delete_users_id id
  | POST_posts now body => post_posts now body
  | GET_posts => get_posts
  | GET_posts_id id => get_posts_id id
  | PUT_posts_id id body => put_posts_id id body
  | DELETE_posts_id id => delete_posts_id id
  end.

(** The server answers one request. *)
Definition serve (db : Prisma.Db) (req : Request) : Reply * Prisma.Db :=
  run (route req) db.

(** The database after a sequence of requests. *)
Definition serveAll (db : Prisma.Db) (reqs : list Request) : Prisma.Db :=
  foldl (λ db req, (serve db req).2) db reqs.

(** The states the server can bring a freshly migrated database to. *)
Inductive reachable : Prisma.Db → Prop :=
| reachable_empty : reachable Prisma.emptyDb
| reachable_serve db req : reachable db → reachable (serve db req).2.

End routes.
End Server.

(** ** [demo-fastify/app.js] *)

Module App.
Import Async Fastify.

(** [fastify.post("/user", ...)]: the handler reads [name] and [email] off
    the body and hands them to the ORM; [createUserSchema] is imported by
    the file and not applied. *)
Definition post_user (body : Js.value) : M Reply :=
  body ← destructure body;
  let name := Js.getProp body "name" in
  let email := Js.getProp body "email" in
  newUser ← await (Prisma.user_create name email);
  send (Created "User created successfully" newUser).

Definition serve_post_user (db : Prisma.Db) (body : Js.value) : Reply * Prisma.Db :=
  run (post_user body) db.

End App.

(** ** Requests and format tests used in the examples *)

Module Samples.

(** A format test to run the examples with: the string has an at sign. *)
Definition atSign (s : string) : bool :=
  bool_decide (is_Some (String.index 0 "@" s)).

Definition john : Js.value :=
  Js.Obj {[ "name" := Js.Str "John Doe"; "email" := Js.Str "john@example.com" ]}.

Definition jo : Js.value :=
  Js.Obj {[ "name" := Js.Str "Jo" ]}.

Definition johnWithAddress : Js.value :=
  Js.Obj {[ "name" := Js.Str "John Doe"; "email" := Js.Str "john@example.com";
            "address" := Js.Str "12 Main Street" ]}.

Definition emailOnly : Js.value :=
  Js.Obj {[ "email" := Js.Str "john@example.com" ]}.

Definition firstPost : Js.value :=
  Js.Obj {[ "title" := Js.Str "First Post";
            "content" := Js.Str "This is my first post!";
            "userId" := Js.Num (Js.Int 1) ]}.

(** The same post for a user whose id is one above the largest [Int]. *)
Definition farPost : Js.value :=
  Js.Obj {[ "title" := Js.Str "First Post";
            "content" := Js.Str "This is my first post!";
            "userId" := Js.Num (Js.Int 2147483648) ]}.

Definition johnDoe : Prisma.User.t :=
  {| Prisma.User.id := 1; Prisma.User.name := "John Doe";
     Prisma.User.email := "john@example.com" |}.

(** The database after John Doe has registered. *)
Definition oneUser : Prisma.Db :=
  {| Prisma.users := {[ 1 := johnDoe ]}; Prisma.posts := ∅;
     Prisma.User_id_seq := 2; Prisma.Post_id_seq := 1 |}.

End Samples.

Module Spec.

(** The JSON object that a user record is sent as. *)
Definition userJson (u : Prisma.User.t) : Js.value :=
  Js.Obj {[ "id" := Js.Num (Js.Int (Prisma.User.id u));
            "name" := Js.Str (Prisma.User.name u);
            "email" := Js.Str (Prisma.User.email u) ]}.

(** Every field of the input is a field of the stored record, with the same
    value. *)
Definition keepsFields (input stored : Js.value) : Prop :=
  ∀ k, Js.getProp input k ≠ Js.Undefined → Js.getProp stored k = Js.getProp input k.

(** The reply carries an issue on field [k] saying that it is shorter than
    [n] characters. *)
Definition reportsTooShort (k : string) (n : Z) (r : Fastify.Reply) : Prop :=
  ∃ errors i, Fastify.payload r = Fastify.Issues errors ∧ i ∈ errors ∧
    Zod.path i = [k] ∧ Zod.code i = Zod.too_small ∧ Zod.minimum i = Some n.

(** The reply is a validation failure: a 400 with the list of issues. *)
Definition validationFailure (r : Fastify.Reply) : Prop :=
  Fastify.statusCode r = 400 ∧ ∃ errors, Fastify.payload r = Fastify.Issues errors.

(** The status code of a request that is served without an error. *)
Definition successCode (req : Server.Request) : Z :=
  match req with
  | Server.POST_users _ | Server.POST_posts _ _ => 201
  | Server.DELETE_users_id _ | Server.DELETE_posts_id _ => 204
  | _ => 200
  end.

(** No two rows of the table carry the same email. *)
Definition uniqueEmails (us : gmap Z Prisma.User.t) : Prop :=
  ∀ i j u v, us !! i = Some u → us !! j = Some v →
             Prisma.User.email u = Prisma.User.email v → i = j.

Definition uniqueDb (db : Prisma.Db) : Prop := uniqueEmails (Prisma.users db).

(** Well-formed databases: what the constraints of the schema, the types
    of the columns and the sequences guarantee. Emails are unique, a row is
    stored under its id, the ids in use are below the next value of the
    sequence, the user of every post is stored, the sequences are
    positive, and the keys of both tables fit their [Int] column. *)
Record wf (db : Prisma.Db) : Prop := {
  wf_unique : uniqueEmails (Prisma.users db);
  wf_key : ∀ i u, Prisma.users db !! i = Some u → Prisma.User.id u = i;
  wf_fresh : ∀ i u, Prisma.users db !! i = Some u → i < Prisma.User_id_seq db;
  wf_references : ∀ i p, Prisma.posts db !! i = Some p →
                         is_Some (Prisma.users db !! Prisma.Post.userId p);
  wf_sequence : 0 < Prisma.User_id_seq db;
  wf_post_sequence : 0 < Prisma.Post_id_seq db;
  wf_user_int : ∀ i u, Prisma.users db !! i = Some u → Prisma.isInt32 i = true;
  wf_post_int : ∀ i p, Prisma.posts db !! i = Some p → Prisma.isInt32 i = true
}.

(** The number is read as no integer that an [Int] column holds. *)
Definition noInt32 (n : Js.number) : Prop :=
  ∀ i, Prisma.intValue n = Some i → Prisma.isInt32 i = false.

(** A computation keeps [P]: whatever it returns or throws, the database it
    leaves satisfies [P] if the one it started from did. *)
Definition keeps (P : Prisma.Db → Prop) {A} (m : Async.M A) : Prop :=
  ∀ db, P db → P (m db).2.

End Spec.

Module Numeral.

(** The decimal numeral of a natural number, the way a client writes an id
    into the path: the digits of [n] are put in front of [acc], the last
    one first. *)
Fixpoint numeralFrom (fuel : nat) (n : Z) (acc : string) : string :=
  match fuel with
  | O => acc
  | S fuel =>
      let acc := String (ascii_of_N (Z.to_N (48 + n `mod` 10))) acc in
      if bool_decide (n < 10) then acc else numeralFrom fuel (n `div` 10) acc
  end.

Definition numeral (n : Z) : string := numeralFrom (S (Z.to_nat n)) n "".

End Numeral.

(** ** The validation notes: [UserSchema] *)

Module Notes.
Section notes.
Context (emailFormat : string → bool).

Definition UserSchema : Zod.object :=
  [ ("username", Zod.string [Zod.min 5 "Username must be at least 5 characters"]);
    ("email", Zod.string [Zod.email emailFormat "Invalid email format"]);
    ("password", Zod.string [Zod.min 8 "Password must contain at least 8 characters"]);
    ("age", Zod.optional (Zod.number [])) ].

Definition validUserData : Js.value :=
  Js.Obj {[ "username" := Js.Str "johnsmith"; "email" := Js.Str "john@example.com";
            "password" := Js.Str "strongpassword123" ]}.

(** [const myUser = UserSchema.parse(validUserData)] *)
Definition myUser : list Zod.ZodIssue + Js.value := Zod.parse UserSchema validUserData.

End notes.
End Notes.

(** ** Queries that include the posts of a user *)

Module Include.

(** The posts that reference user [i]. *)
Definition postsOf (db : Prisma.Db) (i : Z) : list Prisma.Post.t :=
  filter (λ p, Prisma.Post.userId p = i) (map_to_list (Prisma.posts db)).*2.

(** The [include: { posts: true }] of the user queries. *)
Definition withPosts (db : Prisma.Db) (u : Prisma.User.t)
    : Prisma.User.t * list Prisma.Post.t :=
  (u, postsOf db (Prisma.User.id u)).

(** [prisma.user.findMany({ include: { posts: true } })] *)
Definition user_findMany : Prisma.query (list (Prisma.User.t * list Prisma.Post.t)) :=
  λ db, (inr (withPosts db <$> (map_to_list (Prisma.users db)).*2), db).

(** [prisma.user.findUnique({ where: { id }, include: { posts: true } })] *)
Definition user_findUnique (id : Js.number)
    : Prisma.query (option (Prisma.User.t * list Prisma.Post.t)) := λ db,
  match Prisma.intValue id with
  | Some i =>
      if Prisma.isInt32 i then (inr (withPosts db <$> Prisma.users db !! i), db)
      else Prisma.known Prisma.P2020 db
  | None => Prisma.invalid db
  end.

End Include.

(** ** [server.js], second listing: the user routes that include posts *)

Module Listing2.
Import Async.

Inductive Payload :=
| UserWithPosts (user : Prisma.User.t * list Prisma.Post.t)
| UsersWithPosts (users : list (Prisma.User.t * list Prisma.Post.t))
| Message (message : string)
| Error (error : Exn).

Record Reply := { statusCode : Z; payload : Payload }.

Definition status_send (code : Z) (p : Payload) : M Reply :=
  mret {| statusCode := code; payload := p |}.

Definition send (p : Payload) : M Reply := status_send 200 p.

Definition run (handler : M Reply) (db : Prisma.Db) : Reply * Prisma.Db :=
  match handler db with
  | (inr reply, db') => (reply, db')
  | (inl e, db') => ({| statusCode := 500; payload := Error e |}, db')
  end.

(** [fastify.get('/users', ...)] *)
Definition get_users : M Reply :=
  users ← await Include.user_findMany;
  send (UsersWithPosts users).

(** [fastify.get('/users/:id', ...)] *)
Definition get_users_id (id : string) : M Reply :=
  user ← await (Include.user_findUnique (Js.parseInt id));
  match user with
  | Some user => send (UserWithPosts user)
  | None => status_send 404 (Message "User not found")
  end.

End Listing2.

(** ** [demo-fastify/app.js]: the hook and the routes without a database *)

Module Demo.
Import Async.

(** [userSchema]: the JSON schema of the parameters of the greeting. The
    parameter [name] of a matched route is a string; what is left to check
    is [minLength: 4]. *)
Definition userSchema (name : string) : bool :=
  bool_decide (4 ≤ Z.of_nat (String.length name))%Z.

(** A request that matches one of the routes of the file. *)
Inductive Request :=
| GET_root
| GET_greet (name : string)
| POST_user (body : Js.value).

(** What the client gets: the reply of the handler, or the 400 of the
    framework when the parameters fail the schema of the route. *)
Inductive Answer :=
| Replied (reply : Fastify.Reply)
| BadRequest.

Definition statusOf (a : Answer) : Z :=
  match a with
  | Replied reply => Fastify.statusCode reply
  | BadRequest => 400
  end.

(** [fastify.get("/", ...)] *)
Definition get_root : M Fastify.Reply :=
  Fastify.send (Fastify.Message "Hello, its Harshit here!").

(** [fastify.get("/greet/:name", { schema: userSchema }, ...)] *)
Definition get_greet (name : string) : M Fastify.Reply :=
  Fastify.send (Fastify.Message ("Hello, " +:+ name +:+ "!")).

(** The route of a request, behind the schema of its parameters. *)
Definition route (req : Request) (db : Prisma.Db) : Answer * Prisma.Db :=
  match req with
  | GET_root => let '(r, db') := Fastify.run get_root db in (Replied r, db')
  | GET_greet name =>
      if userSchema name
      then let '(r, db') := Fastify.run (get_greet name) db in (Replied r, db')
      else (BadRequest, db)
  | POST_user body =>
      let '(r, db') := Fastify.run (App.post_user body) db in (Replied r, db')
  end.

(** The process: what was written to the console, and the database. *)
Record State := { console : list string; db : Prisma.Db }.

(** [fastify.addHook("onRequest", ...)] *)
Definition onRequest (url : string) (console : list string) : list string :=
  console ++ ["Request made to: " +:+ url].

(** One request: the hook, then the route. *)
Definition serve (st : State) (url : string) (req : Request) : Answer * State :=
  let console' := onRequest url (console st) in
  let '(a, db') := route req (db st) in
  (a, {| console := console'; db := db' |}).

Definition serveAll (st : State) (reqs : list (string * Request)) : State :=
  foldl (λ st r, (serve st r.1 r.2).2) st reqs.

End Demo.

(** ** More databases for the examples *)

Module Samples2.

Definition jane : Js.value :=
  Js.Obj {[ "name" := Js.Str "Jane Roe"; "email" := Js.Str "jane@example.com" ]}.

Definition janeRoe : Prisma.User.t :=
  {| Prisma.User.id := 2; Prisma.User.name := "Jane Roe";
     Prisma.User.email := "jane@example.com" |}.

(** The database after John Doe and Jane Roe have registered. *)
Definition twoUsers : Prisma.Db :=
  {| Prisma.users := {[ 1 := Samples.johnDoe; 2 := janeRoe ]}; Prisma.posts := ∅;
     Prisma.User_id_seq := 3; Prisma.Post_id_seq := 1 |}.

Definition thePost : Prisma.Post.t :=
  {| Prisma.Post.id := 1; Prisma.Post.title := "First Post";
     Prisma.Post.content := "This is my first post!";
     Prisma.Post.createdAt := 0; Prisma.Post.userId := 1 |}.

(** The database after John Doe has registered and posted at time 0. *)
Definition onePost : Prisma.Db :=
  {| Prisma.users := {[ 1 := Samples.johnDoe ]}; Prisma.posts := {[ 1 := thePost ]};
     Prisma.User_id_seq := 2; Prisma.Post_id_seq := 2 |}.

End Samples2.

(** ** More invariants *)

Module Keys.

(** The keys of both tables come from the sequences: they are positive,
    below the next value and not above the last value of the sequence, and
    a post is stored under its id. *)
Record wfKeys (db : Prisma.Db) : Prop := {
  keys_users : ∀ i u, Prisma.users db !! i = Some u → (1 ≤ i ≤ 2147483647)%Z;
  keys_posts : ∀ i p, Prisma.posts db !! i = Some p →
                      Prisma.Post.id p = i ∧ (1 ≤ i < Prisma.Post_id_seq db)%Z ∧
                      (i ≤ 2147483647)%Z;
  keys_user_seq : (1 ≤ Prisma.User_id_seq db)%Z;
  keys_post_seq : (1 ≤ Prisma.Post_id_seq db)%Z
}.

(** The routes that only read. *)
Definition readOnly (req : Server.Request) : bool :=
  match req with
  | Server.GET_users | Server.GET_users_id _
  | Server.GET_posts | Server.GET_posts_id _ => true
  | _ => false
  end.

End Keys.

(** * Proofs *)

(** ** The constraints of the store *)

Module Inv.
Import Prisma Spec.

Lemma emailTaken_false e self us :
  emailTaken e self us = false ↔
  ∀ i u, us !! i = Some u → User.email u = e → Some i = self.
Proof.
  unfold emailTaken. rewrite bool_decide_eq_false. split.
  - intros Hno i u Hi He. destruct (decide (Some i = self)) as [|Hne]; [done|].
    exfalso. apply Hno. exists i, u. done.
  - intros Hall (i & u & Hi & He & Hne). apply Hne. eauto.
Qed.

Lemma hasPosts_false i ps :
  hasPosts i ps = false ↔ ∀ j p, ps !! j = Some p → Post.userId p ≠ i.
Proof.
  unfold hasPosts. rewrite bool_decide_eq_false. split.
  - intros Hno j p Hj He. apply Hno. exists j, p. done.
  - intros Hall (j & p & Hj & He). by eapply Hall.
Qed.

Lemma uniqueEmails_insert us i u :
  uniqueEmails us →
  (∀ j v, us !! j = Some v → User.email v = User.email u → j = i) →
  uniqueEmails (<[i := u]> us).
Proof.
  intros Hu Hnew a b x y.
  rewrite !lookup_insert. repeat case_decide; intros; simplify_eq; eauto.
  symmetry. eauto.
Qed.

Lemma uniqueEmails_delete us i : uniqueEmails us → uniqueEmails (delete i us).
Proof.
  intros Hu a b x y. rewrite !lookup_delete. repeat case_decide; intros; simplify_eq. eauto.
Qed.

End Inv.

(** ** The range of the [Int] columns *)

Module RangeFacts.
Import Prisma Spec.

Lemma isInt32_spec z : isInt32 z = true ↔ (-2147483648 ≤ z ≤ 2147483647)%Z.
Proof. apply bool_decide_eq_true. Qed.

Lemma isInt32_false z : isInt32 z = false ↔ (z < -2147483648 ∨ 2147483647 < z)%Z.
Proof. unfold isInt32. rewrite bool_decide_eq_false. lia. Qed.

Lemma exhausted_false seq : exhausted seq = false ↔ (seq ≤ 2147483647)%Z.
Proof. unfold exhausted. rewrite bool_decide_eq_false. lia. Qed.

(** An integer of 32 bits is read as it is. *)
Lemma intValue_Int z : isInt32 z = true → intValue (Js.Int z) = Some z.
Proof.
  rewrite isInt32_spec. intros Hz. unfold intValue.
  rewrite bool_decide_eq_true_2; [done|lia].
Qed.

(** An integer is read as it is or not at all. *)
Lemma intValue_Int_Some z i : intValue (Js.Int z) = Some i → i = z.
Proof. unfold intValue. case_bool_decide; by intros [= <-]. Qed.

(** The queries at an id of 32 bits. *)
Lemma user_findUnique_int i db :
  isInt32 i = true → user_findUnique (Js.Int i) db = (inr (users db !! i), db).
Proof. intros Hi. unfold user_findUnique. by rewrite intValue_Int, Hi. Qed.

Lemma user_update_int i name email db :
  isInt32 i = true →
  user_update (Js.Int i) name email db =
  match optionalString name, optionalString email with
  | Some n, Some e =>
      match users db !! i with
      | None => known P2025 db
      | Some old =>
          let u := {| User.id := User.id old;
                      User.name := default (User.name old) n;
                      User.email := default (User.email old) e |} in
          if emailTaken (User.email u) (Some i) (users db) then known P2002 db
          else (inr u, with_users db (<[i := u]> (users db)))
      end
  | _, _ => invalid db
  end.
Proof. intros Hi. unfold user_update. by rewrite intValue_Int, Hi. Qed.

Lemma user_delete_int i db :
  isInt32 i = true →
  user_delete (Js.Int i) db =
  match users db !! i with
  | None => known P2025 db
  | Some old =>
      if hasPosts i (posts db) then known P2003 db
      else (inr old, with_users db (delete i (users db)))
  end.
Proof. intros Hi. unfold user_delete. by rewrite intValue_Int, Hi. Qed.

Lemma post_findUnique_int i db :
  isInt32 i = true →
  post_findUnique (Js.Int i) db = (inr (withUser db <$> posts db !! i), db).
Proof. intros Hi. unfold post_findUnique. by rewrite intValue_Int, Hi. Qed.

Lemma post_update_int i title content userId db :
  isInt32 i = true →
  post_update (Js.Int i) title content userId db =
  match optionalString title, optionalString content, optionalInt userId with
  | Some t, Some c, Some uid =>
      if default true (isInt32 <$> uid) then
        match posts db !! i with
        | None => known P2025 db
        | Some old =>
            let p := {| Post.id := Post.id old;
                        Post.title := default (Post.title old) t;
                        Post.content := default (Post.content old) c;
                        Post.createdAt := Post.createdAt old;
                        Post.userId := default (Post.userId old) uid |} in
            if bool_decide (is_Some (users db !! Post.userId p))
            then (inr p, with_posts db (<[i := p]> (posts db)))
            else known P2003 db
        end
      else known P2020 db
  | _, _, _ => invalid db
  end.
Proof. intros Hi. unfold post_update. by rewrite intValue_Int, Hi. Qed.

Lemma post_delete_int i db :
  isInt32 i = true →
  post_delete (Js.Int i) db =
  match posts db !! i with
  | None => known P2025 db
  | Some old => (inr old, with_posts db (delete i (posts db)))
  end.
Proof. intros Hi. unfold post_delete. by rewrite intValue_Int, Hi. Qed.

(** A number that is read as no integer of 32 bits: every query by id
    fails and leaves the database as it is. *)
Lemma noInt32_Int z : isInt32 z = false → noInt32 (Js.Int z).
Proof. by intros Hz i ->%intValue_Int_Some. Qed.

Lemma noInt32_NaN : noInt32 Js.NaN.
Proof. by intros i. Qed.

Lemma noInt32_Inf b : noInt32 (Js.Inf b).
Proof. by intros i. Qed.

Lemma user_findUnique_noInt32 n db :
  noInt32 n → ∃ e, user_findUnique n db = (inl e, db).
Proof.
  intros Hn. unfold user_findUnique.
  destruct (intValue n) as [i|] eqn:Hi; [|by eexists].
  rewrite (Hn i Hi). by eexists.
Qed.

Lemma user_update_noInt32 n name email db :
  noInt32 n → ∃ e, user_update n name email db = (inl e, db).
Proof.
  intros Hn. unfold user_update.
  destruct (intValue n) as [i|] eqn:Hi; [|by eexists].
  rewrite (Hn i Hi).
  destruct (optionalString name); [|by eexists].
  destruct (optionalString email); by eexists.
Qed.

Lemma user_delete_noInt32 n db :
  noInt32 n → ∃ e, user_delete n db = (inl e, db).
Proof.
  intros Hn. unfold user_delete.
  destruct (intValue n) as [i|] eqn:Hi; [|by eexists].
  rewrite (Hn i Hi). by eexists.
Qed.

Lemma post_findUnique_noInt32 n db :
  noInt32 n → ∃ e, post_findUnique n db = (inl e, db).
Proof.
  intros Hn. unfold post_findUnique.
  destruct (intValue n) as [i|] eqn:Hi; [|by eexists].
  rewrite (Hn i Hi). by eexists.
Qed.

Lemma post_update_noInt32 n title content userId db :
  noInt32 n → ∃ e, post_update n title content userId db = (inl e, db).
Proof.
  intros Hn. unfold post_update.
  destruct (intValue n) as [i|] eqn:Hi; [|by eexists].
  rewrite (Hn i Hi). simpl.
  destruct (optionalString title); [|by eexists].
  destruct (optionalString content); [|by eexists].
  destruct (optionalInt userId); by eexists.
Qed.

Lemma post_delete_noInt32 n db :
  noInt32 n → ∃ e, post_delete n db = (inl e, db).
Proof.
  intros Hn. unfold post_delete.
  destruct (intValue n) as [i|] eqn:Hi; [|by eexists].
  rewrite (Hn i Hi). by eexists.
Qed.

End RangeFacts.

(** ** What the computations keep *)

Module Pres.
Import Prisma Async Fastify Spec Inv RangeFacts.

Section preserves.
Context (P : Db → Prop).

Lemma keeps_mret {A} (a : A) : keeps P (mret a).
Proof. by intros db. Qed.

Lemma keeps_throw {A} e : keeps P (throw (A := A) e).
Proof. by intros db. Qed.

Lemma keeps_bind {A B} (m : M A) (k : A → M B) :
  keeps P m → (∀ a, keeps P (k a)) → keeps P (m ≫= k).
Proof.
  intros Hm Hk db HP. specialize (Hm db HP).
  unfold mbind, M_bind. destruct (m db) as [[e|a] db']; [done|]. by apply Hk.
Qed.

Lemma keeps_try_catch {A} (m : M A) (h : Exn → M A) :
  keeps P m → (∀ e, keeps P (h e)) → keeps P (try_catch m h).
Proof.
  intros Hm Hh db HP. specialize (Hm db HP).
  unfold try_catch. destruct (m db) as [[e|a] db']; [|done]. by apply Hh.
Qed.

Lemma keeps_await {A} (q : query A) :
  (∀ db, P db → P (q db).2) → keeps P (await q).
Proof.
  intros Hq db HP. specialize (Hq db HP).
  unfold await. by destruct (q db) as [[e|a] db'].
Qed.

Lemma keeps_parse shape v : keeps P (parse shape v).
Proof. unfold parse. destruct (Zod.parse shape v); [apply keeps_throw | apply keeps_mret]. Qed.

Lemma keeps_destructure v : keeps P (destructure v).
Proof. destruct v; first [apply keeps_throw | apply keeps_mret]. Qed.

Lemma keeps_status_send code p : keeps P (status_send code p).
Proof. apply keeps_mret. Qed.

Lemma keeps_run (h : M Reply) db : keeps P h → P db → P (run h db).2.
Proof.
  intros Hh HP. specialize (Hh db HP). unfold run.
  by destruct (h db) as [[e|a] db'].
Qed.

End preserves.

(** One step through a handler: its binds, its [try], its queries. *)
Ltac keeps_step :=
  first
    [ apply keeps_try_catch | apply keeps_bind
    | apply keeps_await; intros ?db ?Hdb
    | apply keeps_parse | apply keeps_destructure | apply keeps_status_send
    | match goal with
      | |- ∀ _ : option _, _ => intros [?|]
      | |- ∀ _, keeps _ _ => intro
      end ].

(** *** The queries keep the database well formed *)

Lemma user_create_wf name email db : wf db → wf (user_create name email db).2.
Proof.
  intros [Hu Hk Hf Hr Hs Hps Hui Hpi]. unfold user_create.
  destruct name as [| | | |n| |]; try done. destruct email as [| | | |e| |]; try done.
  destruct (exhausted (User_id_seq db)) eqn:Hlast; [done|].
  apply exhausted_false in Hlast.
  assert (wf (next_User_id db)) as Hnext.
  { split; simpl; eauto; try lia. intros i u Hi. specialize (Hf i u Hi). lia. }
  destruct (emailTaken e None (users db)) eqn:Htaken; [done|].
  case_bool_decide as Hpk; [done|].
  rewrite emailTaken_false in Htaken.
  split; simpl.
  - apply uniqueEmails_insert; [done|]. intros j v Hj He.
    by specialize (Htaken j v Hj He).
  - intros i u. rewrite lookup_insert. case_decide; intros; simplify_eq/=; eauto.
  - intros i u. rewrite lookup_insert. case_decide; intros; simplify_eq; [lia|].
    assert (i < User_id_seq db) by eauto. lia.
  - intros i p Hi. rewrite lookup_insert. case_decide; eauto.
  - lia.
  - done.
  - intros i u. rewrite lookup_insert. case_decide; intros; simplify_eq; eauto.
    apply isInt32_spec. lia.
  - done.
Qed.

Lemma user_update_wf id name email db : wf db → wf (user_update id name email db).2.
Proof.
  intros Hwf. pose proof Hwf as [Hu Hk Hf Hr Hs Hps Hui Hpi]. unfold user_update.
  destruct (intValue id) as [i|]; try done.
  destruct (optionalString name) as [n|]; try done.
  destruct (optionalString email) as [e|]; try done.
  destruct (isInt32 i); try done.
  destruct (users db !! i) as [old|] eqn:Hold; try done.
  destruct (emailTaken _ _ _) eqn:Htaken; try done.
  rewrite emailTaken_false in Htaken.
  split; simpl; try done.
  - apply uniqueEmails_insert; [done|]. intros j v Hj He.
    specialize (Htaken j v Hj He). by simplify_eq.
  - intros j u. rewrite lookup_insert. case_decide; intros; simplify_eq/=; eauto.
  - intros j u. rewrite lookup_insert. case_decide; intros; simplify_eq/=; eauto.
  - intros j p Hj. rewrite lookup_insert. case_decide; eauto.
  - intros j u. rewrite lookup_insert. case_decide; intros; simplify_eq/=; eauto.
Qed.

Lemma user_delete_wf id db : wf db → wf (user_delete id db).2.
Proof.
  intros Hwf. pose proof Hwf as [Hu Hk Hf Hr Hs Hps Hui Hpi]. unfold user_delete.
  destruct (intValue id) as [i|]; try done.
  destruct (isInt32 i); try done.
  destruct (users db !! i) as [old|] eqn:Hold; try done.
  destruct (hasPosts i (posts db)) eqn:Hposts; try done.
  rewrite hasPosts_false in Hposts.
  split; simpl; try done.
  - by apply uniqueEmails_delete.
  - intros j u. rewrite lookup_delete. case_decide; intros; simplify_eq/=; eauto.
  - intros j u. rewrite lookup_delete. case_decide; intros; simplify_eq/=; eauto.
  - intros j p Hj. rewrite lookup_delete_ne; eauto.
    intros ->. by eapply Hposts.
  - intros j u. rewrite lookup_delete. case_decide; intros; simplify_eq/=; eauto.
Qed.

Lemma post_create_wf now title content userId db :
  wf db → wf (post_create now title content userId db).2.
Proof.
  intros Hwf. pose proof Hwf as [Hu Hk Hf Hr Hs Hps Hui Hpi]. unfold post_create.
  destruct title as [| | | |t| |]; try done.
  destruct content as [| | | |c| |]; try done.
  destruct (optionalInt userId) as [[uid|]|]; try done.
  destruct (isInt32 uid); try done.
  destruct (exhausted (Post_id_seq db)) eqn:Hlast; [done|].
  apply exhausted_false in Hlast.
  assert (wf (next_Post_id db)) as Hnext by (split; simpl; eauto; lia).
  case_bool_decide as Huser; [|done].
  case_bool_decide as Hpk; [done|].
  split; simpl; eauto; try lia.
  - intros j p. rewrite lookup_insert. case_decide; intros; simplify_eq/=; eauto.
  - intros j p. rewrite lookup_insert. case_decide; intros; simplify_eq/=; eauto.
    apply isInt32_spec. lia.
Qed.

Lemma post_update_wf id title content userId db :
  wf db → wf (post_update id title content userId db).2.
Proof.
  intros Hwf. pose proof Hwf as [Hu Hk Hf Hr Hs Hps Hui Hpi]. unfold post_update.
  destruct (intValue id) as [i|]; try done.
  destruct (optionalString title) as [t|]; try done.
  destruct (optionalString content) as [c|]; try done.
  destruct (optionalInt userId) as [uid|]; try done.
  destruct (isInt32 i && _); try done.
  destruct (posts db !! i) as [old|] eqn:Hold; try done.
  case_bool_decide as Huser; [|done].
  split; simpl; eauto.
  - intros j p. rewrite lookup_insert. case_decide; intros; simplify_eq/=; eauto.
  - intros j p. rewrite lookup_insert. case_decide; intros; simplify_eq/=; eauto.
Qed.

Lemma post_delete_wf id db : wf db → wf (post_delete id db).2.
Proof.
  intros Hwf. pose proof Hwf as [Hu Hk Hf Hr Hs Hps Hui Hpi]. unfold post_delete.
  destruct (intValue id) as [i|]; try done.
  destruct (isInt32 i); try done.
  destruct (posts db !! i) as [old|] eqn:Hold; try done.
  split; simpl; eauto.
  - intros j p. rewrite lookup_delete. case_decide; intros; simplify_eq/=; eauto.
  - intros j p. rewrite lookup_delete. case_decide; intros; simplify_eq/=; eauto.
Qed.

Lemma user_findUnique_same id db : (user_findUnique id db).2 = db.
Proof. unfold user_findUnique. by repeat case_match. Qed.

Lemma post_findUnique_same id db : (post_findUnique id db).2 = db.
Proof. unfold post_findUnique. by repeat case_match. Qed.

Lemma empty_wf : wf emptyDb.
Proof. split; simpl; try done; intros *; by rewrite ?lookup_empty. Qed.

End Pres.

Module ServerInv.
Import Prisma Async Fastify Spec Inv Pres.

Lemma route_keeps_wf fmt req : keeps wf (Server.route fmt req).
Proof.
  destruct req; simpl;
    unfold Server.post_users, Server.get_users, Server.get_users_id,
      Server.put_users_id, Server.delete_users_id, Server.post_posts,
      Server.get_posts, Server.get_posts_id, Server.put_posts_id,
      Server.delete_posts_id, send;
    repeat keeps_step;
    auto using user_create_wf, user_update_wf, user_delete_wf,
      post_create_wf, post_update_wf, post_delete_wf.
  all: by rewrite ?user_findUnique_same, ?post_findUnique_same.
Qed.

Lemma serve_wf fmt db req : wf db → wf (Server.serve fmt db req).2.
Proof.
  intros Hwf. unfold Server.serve.
  apply (keeps_run wf); [apply route_keeps_wf | done].
Qed.

Lemma reachable_wf fmt db : Server.reachable fmt db → wf db.
Proof. induction 1; [apply empty_wf | by apply serve_wf]. Qed.

Lemma post_user_wf db body : wf db → wf (App.serve_post_user db body).2.
Proof.
  intros Hwf. unfold App.serve_post_user. apply (keeps_run wf); [|done].
  unfold App.post_user, send. repeat keeps_step. by apply user_create_wf.
Qed.

End ServerInv.

Module Unique.
Import Prisma Async Fastify Spec Inv Pres.

Lemma user_create_unique name email db :
  uniqueDb db → uniqueDb (user_create name email db).2.
Proof.
  unfold uniqueDb, user_create. intros Hu.
  destruct name as [| | | |n| |]; try done. destruct email as [| | | |e| |]; try done.
  destruct (exhausted (User_id_seq db)); [done|].
  destruct (emailTaken e None (users db)) eqn:Htaken; [done|].
  case_bool_decide as Hpk; [done|].
  rewrite emailTaken_false in Htaken. simpl.
  apply uniqueEmails_insert; [done|]. intros j v Hj He.
  by specialize (Htaken j v Hj He).
Qed.

Lemma user_update_unique id name email db :
  uniqueDb db → uniqueDb (user_update id name email db).2.
Proof.
  unfold uniqueDb, user_update. intros Hu.
  destruct (intValue id) as [i|]; try done.
  destruct (optionalString name) as [n|]; try done.
  destruct (optionalString email) as [e|]; try done.
  destruct (isInt32 i); try done.
  destruct (users db !! i) as [old|] eqn:Hold; try done.
  destruct (emailTaken _ _ _) eqn:Htaken; try done.
  rewrite emailTaken_false in Htaken. simpl.
  apply uniqueEmails_insert; [done|]. intros j v Hj He.
  specialize (Htaken j v Hj He). by simplify_eq.
Qed.

Lemma user_delete_unique id db : uniqueDb db → uniqueDb (user_delete id db).2.
Proof.
  unfold uniqueDb, user_delete. intros Hu.
  destruct (intValue id) as [i|]; try done.
  destruct (isInt32 i); try done.
  destruct (users db !! i) as [old|]; try done.
  destruct (hasPosts i (posts db)); try done.
  by apply uniqueEmails_delete.
Qed.

Lemma post_create_users now title content userId db :
  users (post_create now title content userId db).2 = users db.
Proof. unfold post_create. by repeat case_match. Qed.

Lemma post_update_users id title content userId db :
  users (post_update id title content userId db).2 = users db.
Proof. unfold post_update. by repeat case_match. Qed.

Lemma post_delete_users id db : users (post_delete id db).2 = users db.
Proof. unfold post_delete. by repeat case_match. Qed.

Lemma route_keeps_unique fmt req : keeps uniqueDb (Server.route fmt req).
Proof.
  destruct req; simpl;
    unfold Server.post_users, Server.get_users, Server.get_users_id,
      Server.put_users_id, Server.delete_users_id, Server.post_posts,
      Server.get_posts, Server.get_posts_id, Server.put_posts_id,
      Server.delete_posts_id, send;
    repeat keeps_step;
    auto using user_create_unique, user_update_unique, user_delete_unique.
  all: unfold uniqueDb in *;
    rewrite ?user_findUnique_same, ?post_findUnique_same, ?post_create_users,
      ?post_update_users, ?post_delete_users; done.
Qed.

Lemma serve_unique fmt db req :
  uniqueEmails (users db) → uniqueEmails (users (Server.serve fmt db req).2).
Proof.
  intros Hu. unfold Server.serve.
  apply (keeps_run uniqueDb); [apply route_keeps_unique | done].
Qed.

Lemma post_user_unique db body :
  uniqueEmails (users db) → uniqueEmails (users (App.serve_post_user db body).2).
Proof.
  intros Hu. unfold App.serve_post_user. apply (keeps_run uniqueDb); [|done].
  unfold App.post_user, send. repeat keeps_step. by apply user_create_unique.
Qed.

End Unique.

Module ZodFacts.

Lemma keep_lookup k x fields k' :
  Zod.keep k x fields !! k' =
  if decide (k = k')
  then match x with Js.Undefined => fields !! k' | _ => Some x end
  else fields !! k'.
Proof.
  unfold Zod.keep. destruct x; rewrite ?lookup_insert; by case_decide.
Qed.

(** The parsed object has the keys of the shape that the input has. *)
Lemma strip_lookup shape v k :
  Zod.strip shape v !! k =
  if decide (k ∈ shape.*1)
  then match Js.getProp v k with Js.Undefined => None | x => Some x end
  else None.
Proof.
  unfold Zod.strip. induction shape as [|[k' sch] shape IH].
  { simpl. by rewrite lookup_empty. }
  cbn [foldr fmap list_fmap fst]. rewrite keep_lookup, IH.
  destruct (decide (k' = k)) as [->|Hne].
  - rewrite (decide_True (P := k ∈ k :: _)) by left.
    destruct (Js.getProp v k); try done. by case_decide.
  - rewrite (decide_ext (k ∈ (k' :: shape.*1)) (k ∈ shape.*1)); [done|].
    rewrite elem_of_cons. split; [intros [?|?]; [congruence|done] | by right].
Qed.

Lemma getProp_strip shape v k :
  k ∈ shape.*1 → Js.getProp (Js.Obj (Zod.strip shape v)) k = Js.getProp v k.
Proof.
  intros Hk. unfold Js.getProp at 1. rewrite strip_lookup, decide_True by done.
  by destruct (Js.getProp v k).
Qed.

(** A value that is not an object is rejected as a whole. *)
Lemma parse_inr_object shape v parsed :
  Zod.parse shape v = inr parsed →
  (∃ fields, v = Js.Obj fields) ∧ Zod.objectIssues shape v = [] ∧
  parsed = Js.Obj (Zod.strip shape v).
Proof.
  unfold Zod.parse. destruct v; try done.
  destruct (Zod.objectIssues _ _) eqn:Hi; [|done]. intros [= <-]. eauto.
Qed.

Lemma parseField_string_min n msg p v :
  Zod.parseField (Zod.string [Zod.min n msg]) p v = [] →
  ∃ s, v = Js.Str s ∧ (n ≤ Z.of_nat (String.length s))%Z.
Proof.
  destruct v; simpl; try done. case_bool_decide; [done|]. intros _. eexists. split; [done|lia].
Qed.

Lemma parseField_string_email fmt msg p v :
  Zod.parseField (Zod.string [Zod.email fmt msg]) p v = [] →
  ∃ s, v = Js.Str s ∧ fmt s = true.
Proof.
  destruct v; simpl; try done. destruct (fmt s) eqn:Hf; [|done]. eauto.
Qed.

Lemma parseField_number_int_positive msg p v :
  Zod.parseField (Zod.number [Zod.int msg; Zod.positive]) p v = [] →
  ∃ z, v = Js.Num (Js.Int z) ∧ (0 < z)%Z.
Proof.
  destruct v as [| | |[z| | |]| | |]; simpl; try done.
  case_bool_decide; [|done]. eauto.
Qed.

(** What the user schema of the server accepts. *)
Lemma createUserSchema_accepts fmt body parsed :
  Zod.parse (Server.createUserSchema fmt) body = inr parsed →
  ∃ n e, Js.getProp body "name" = Js.Str n ∧ Js.getProp body "email" = Js.Str e ∧
         (3 ≤ Z.of_nat (String.length n))%Z ∧ fmt e = true ∧
         Js.getProp parsed "name" = Js.Str n ∧ Js.getProp parsed "email" = Js.Str e.
Proof.
  intros (_ & Hi & ->)%parse_inr_object.
  unfold Zod.objectIssues in Hi. simpl in Hi. rewrite app_nil_r in Hi.
  apply app_eq_nil in Hi as [Hn He].
  apply parseField_string_min in Hn as (n & Hn & Hlen).
  apply parseField_string_email in He as (e & He & Hfmt).
  exists n, e. rewrite !getProp_strip by (simpl; set_solver). done.
Qed.

Lemma createUserSchema_accepted fmt fields n e :
  Js.getProp (Js.Obj fields) "name" = Js.Str n →
  Js.getProp (Js.Obj fields) "email" = Js.Str e →
  (3 ≤ Z.of_nat (String.length n))%Z → fmt e = true →
  Zod.parse (Server.createUserSchema fmt) (Js.Obj fields)
  = inr (Js.Obj (Zod.strip (Server.createUserSchema fmt) (Js.Obj fields))).
Proof.
  intros Hn He Hlen Hfmt. unfold Zod.parse, Zod.objectIssues.
  cbn [map concat Server.createUserSchema fst snd]. rewrite Hn, He.
  cbn [Zod.parseField map concat Zod.checkString app].
  by rewrite bool_decide_eq_false_2, Hfmt by lia.
Qed.

(** What the post schema accepts. *)
Lemma createPostSchema_accepts body parsed :
  Zod.parse Server.createPostSchema body = inr parsed →
  ∃ t c uid, Js.getProp body "title" = Js.Str t ∧ Js.getProp body "content" = Js.Str c ∧
             Js.getProp body "userId" = Js.Num (Js.Int uid) ∧
             (3 ≤ Z.of_nat (String.length t))%Z ∧ (10 ≤ Z.of_nat (String.length c))%Z ∧ (0 < uid)%Z ∧
             Js.getProp parsed "title" = Js.Str t ∧ Js.getProp parsed "content" = Js.Str c ∧
             Js.getProp parsed "userId" = Js.Num (Js.Int uid).
Proof.
  intros (_ & Hi & ->)%parse_inr_object.
  unfold Zod.objectIssues in Hi. simpl in Hi. rewrite app_nil_r in Hi.
  apply app_eq_nil in Hi as [Ht Hi]. apply app_eq_nil in Hi as [Hc Hu].
  apply parseField_string_min in Ht as (t & Ht & Hlt).
  apply parseField_string_min in Hc as (c & Hc & Hlc).
  apply parseField_number_int_positive in Hu as (uid & Hu & Hpos).
  exists t, c, uid. rewrite !getProp_strip by (simpl; set_solver). done.
Qed.

End ZodFacts.

Module ParseIntFacts.
Import Js.

(** Below 2^53 every natural number is a number value. *)
Lemma toNumber_small (m : Z) : (m < 9007199254740992)%Z → toNumber m = Int m.
Proof. intros Hm. unfold toNumber. by rewrite bool_decide_eq_true_2. Qed.

(** Rounding does not bring a natural number above 2^31 - 1 back into the
    32 bits of an id. *)
Lemma toNumber_large (m : Z) :
  (2147483647 < m)%Z →
  (∃ d, toNumber m = Int d ∧ (2147483647 < d)%Z) ∨ toNumber m = Inf false.
Proof.
  intros Hm. unfold toNumber. case_bool_decide as Hsmall; [left; eauto|].
  set (e := Z.log2 m - 52).
  assert (53 ≤ Z.log2 m)%Z as Hlog.
  { change 53%Z with (Z.log2 9007199254740992). apply Z.log2_le_mono. lia. }
  assert (0 < e)%Z as He by (unfold e; lia).
  assert (4503599627370496 ≤ Z.shiftr m e)%Z as Hq.
  { rewrite Z.shiftr_div_pow2 by lia. apply Z.div_le_lower_bound; [lia|].
    change 4503599627370496%Z with (2 ^ 52)%Z.
    rewrite Z.mul_comm, <-Z.pow_add_r by lia.
    replace (52 + e)%Z with (Z.log2 m) by (unfold e; lia).
    apply Z.log2_spec. lia. }
  set (q := Z.shiftr m e) in *.
  assert (∀ q' : Z, (q ≤ q')%Z → (2147483647 < Z.shiftl q' e)%Z) as Hd.
  { intros q' Hq'. rewrite Z.shiftl_mul_pow2 by lia.
    assert (1 ≤ 2 ^ e)%Z by lia. nia. }
  case_bool_decide; [left|by right]. eexists. split; [done|].
  apply Hd. repeat case_match; lia.
Qed.

Lemma digit_first c rest :
  isDecimalDigit c = true →
  trimStart (String c rest) = String c rest ∧
  stripSign (String c rest) = (1, String c rest) ∧
  digitValue 10 c = Some (Z.of_N (N_of_ascii c) - 48).
Proof.
  destruct c as [[] [] [] [] [] [] [] []]; vm_compute; try discriminate; done.
Qed.

Lemma not_digit c : isDecimalDigit c = false → digitValue 10 c = None.
Proof.
  destruct c as [[] [] [] [] [] [] [] []]; vm_compute; try discriminate; done.
Qed.

Lemma stripPrefix_decimal s : (stripPrefix s).1 = 10 → stripPrefix s = (10, s).
Proof. unfold stripPrefix. repeat case_match; simplify_eq/=; done. Qed.

Lemma digitsPrefix_stop rest acc :
  startsWithDecimalDigit rest = false → digitsPrefix 10 rest acc = acc.
Proof.
  destruct rest as [|c rest]; [done|]. simpl. intros Hc. by rewrite not_digit.
Qed.

Lemma digitsPrefix_decimal digits rest acc :
  digits ≠ "" → allDecimalDigits digits = true → startsWithDecimalDigit rest = false →
  digitsPrefix 10 (digits +:+ rest) acc = Some (decimalFrom (default 0 acc) digits).
Proof.
  revert acc. induction digits as [|c digits IH]; [done|].
  intros acc _ [Hc Hdigits]%andb_prop Hrest.
  destruct (digit_first c "" Hc) as (_ & _ & Hv).
  change (String c digits +:+ rest) with (String c (digits +:+ rest)).
  cbn [digitsPrefix decimalFrom]. rewrite Hv.
  destruct digits as [|c' digits'].
  - simpl. by rewrite digitsPrefix_stop.
  - by rewrite IH.
Qed.

(** A parameter that starts with decimal digits, does not go on with one
    more and is not prefixed by [0x] parses to the number the digits
    denote. *)
Lemma parseInt_decimal digits rest :
  digits ≠ "" → allDecimalDigits digits = true → startsWithDecimalDigit rest = false →
  (stripPrefix (digits +:+ rest)).1 = 10 →
  parseInt (digits +:+ rest) = toNumber (decimalValue digits).
Proof.
  intros Hne Hdigits Hrest Hprefix. unfold parseInt.
  destruct digits as [|c digits]; [done|].
  pose proof Hdigits as [Hc _]%andb_prop.
  destruct (digit_first c (digits +:+ rest) Hc) as (Htrim & Hsign & _).
  change (String c digits +:+ rest) with (String c (digits +:+ rest)) in *.
  rewrite Htrim, Hsign, (stripPrefix_decimal _ Hprefix).
  change (String c (digits +:+ rest)) with (String c digits +:+ rest).
  rewrite digitsPrefix_decimal by done. reflexivity.
Qed.

(** A parameter that starts with neither white space, nor a sign, nor a
    decimal digit has no digit for [parseInt] to read. *)
Lemma parseInt_no_digit c rest :
  isWhiteSpace c = false → c ≠ "+"%char → c ≠ "-"%char → isDecimalDigit c = false →
  parseInt (String c rest) = NaN.
Proof.
  destruct c as [[] [] [] [] [] [] [] []]; intros Hspace Hplus Hminus Hdigit;
    try done; try (vm_compute in Hspace; discriminate Hspace);
    try (vm_compute in Hdigit; discriminate Hdigit); reflexivity.
Qed.

End ParseIntFacts.

Module NumeralFacts.
Import Js Numeral ParseIntFacts.

Lemma append_cons c (s t : string) : String c s +:+ t = String c (s +:+ t).
Proof. reflexivity. Qed.

Lemma append_assoc (s t u : string) : (s +:+ t) +:+ u = s +:+ (t +:+ u).
Proof. induction s as [|c s IH]; [done|]. by rewrite !append_cons, IH. Qed.

Lemma append_empty_r (s : string) : s +:+ "" = s.
Proof. induction s as [|c s IH]; [done|]. by rewrite append_cons, IH. Qed.

Lemma decimalFrom_append acc s t :
  decimalFrom acc (s +:+ t) = decimalFrom (decimalFrom acc s) t.
Proof.
  revert acc. induction s as [|c s IH]; intros acc; [done|].
  rewrite append_cons. simpl. by rewrite IH.
Qed.

Lemma decimalFrom_nonneg (acc : Z) s :
  (0 ≤ acc)%Z → allDecimalDigits s = true → (0 ≤ decimalFrom acc s)%Z.
Proof.
  revert acc. induction s as [|c s IH]; intros acc Hacc Hs; [done|].
  simpl in *. apply andb_prop in Hs as [Hc Hs]. apply IH; [|done].
  apply bool_decide_eq_true in Hc. lia.
Qed.

Lemma allDecimalDigits_append s t :
  allDecimalDigits (s +:+ t) = allDecimalDigits s && allDecimalDigits t.
Proof.
  induction s as [|c s IH]; [done|].
  rewrite append_cons. simpl. by rewrite IH, andb_assoc.
Qed.

Lemma numeralFrom_acc fuel n acc :
  numeralFrom fuel n acc = numeralFrom fuel n "" +:+ acc.
Proof.
  revert n acc. induction fuel as [|fuel IH]; intros n acc; [done|].
  simpl. case_bool_decide; [done|].
  rewrite IH, (IH _ (String _ "")), append_assoc. done.
Qed.

(** The digit that stands for [d]. *)
Lemma digit_code d :
  0 ≤ d < 10 →
  Z.of_N (N_of_ascii (ascii_of_N (Z.to_N (48 + d)))) = 48 + d.
Proof.
  intros Hd. rewrite N_ascii_embedding by lia. lia.
Qed.

Lemma numeralFrom_spec fuel n :
  0 ≤ n < Z.of_nat fuel →
  decimalFrom 0 (numeralFrom fuel n "") = n ∧
  allDecimalDigits (numeralFrom fuel n "") = true ∧
  numeralFrom fuel n "" ≠ "".
Proof.
  revert n. induction fuel as [|fuel IH]; intros n Hn; [lia|].
  assert (0 ≤ n `mod` 10 < 10) as Hd by (apply Z.mod_pos_bound; lia).
  assert (isDecimalDigit (ascii_of_N (Z.to_N (48 + n `mod` 10))) = true) as Hdigit.
  { unfold isDecimalDigit. rewrite digit_code by done. apply bool_decide_eq_true. lia. }
  simpl. case_bool_decide as Hsmall.
  - simpl. rewrite digit_code, Hdigit by done. split; [|done].
    rewrite Z.mod_small by lia. lia.
  - rewrite numeralFrom_acc.
    destruct (IH (n `div` 10)) as (Hvalue & Hall & Hne).
    { split; [apply Z.div_pos; lia|].
      assert (n `div` 10 < n) by (apply Z.div_lt; lia). lia. }
    rewrite decimalFrom_append, allDecimalDigits_append, Hvalue, Hall.
    simpl. rewrite digit_code, Hdigit by done. split; [|split; [done|]].
    + pose proof (Z.div_mod n 10). lia.
    + by destruct (numeralFrom fuel _ "").
Qed.

Lemma stripPrefix_digits s : allDecimalDigits s = true → (stripPrefix s).1 = 10.
Proof.
  intros Hs. unfold stripPrefix. repeat case_match; simplify_eq/=; try done.
  all: by vm_compute in Hs.
Qed.

(** Reading the numeral of a natural number gives its number value. *)
Lemma parseInt_numeral_toNumber (n : Z) :
  (0 ≤ n)%Z → parseInt (numeral n) = toNumber n.
Proof.
  intros Hn. destruct (numeralFrom_spec (S (Z.to_nat n)) n) as (Hvalue & Hall & Hne); [lia|].
  fold (numeral n) in *.
  rewrite <-(append_empty_r (numeral n)), parseInt_decimal; try done.
  - by unfold decimalValue; rewrite Hvalue.
  - rewrite append_empty_r. by apply stripPrefix_digits.
Qed.

(** Reading the numeral of an id gives the id back. *)
Lemma parseInt_numeral (n : Z) :
  (0 ≤ n < 9007199254740992)%Z → parseInt (numeral n) = Int n.
Proof.
  intros Hn. rewrite parseInt_numeral_toNumber, toNumber_small; [done|lia..].
Qed.

End NumeralFacts.

(** * The claims *)

Import Prisma Async Fastify Spec.
Import Inv RangeFacts Pres ServerInv Unique ZodFacts ParseIntFacts NumeralFacts.

(** ** The routes, case by case *)

(** John Doe registers with a freshly migrated database. *)
Lemma sample_oneUser :
  Server.serve Samples.atSign Prisma.emptyDb (Server.POST_users Samples.john)
  = ({| statusCode := 201; payload := User Samples.johnDoe |}, Samples.oneUser).
Proof. vm_compute. reflexivity. Qed.

(** [POST /users]: a 400 with the issues, a 201 with the stored user, or a
    400 with the error of the ORM. *)
Lemma post_users_unfold fmt db body :
  Server.serve fmt db (Server.POST_users body) =
  match Zod.parse (Server.createUserSchema fmt) body with
  | inl errors => ({| statusCode := 400; payload := Issues errors |}, db)
  | inr parsed =>
      match user_create (Js.getProp parsed "name") (Js.getProp parsed "email") db with
      | (inr user, db') => ({| statusCode := 201; payload := User user |}, db')
      | (inl e, db') => ({| statusCode := 400; payload := Error (PrismaError e) |}, db')
      end
  end.
Proof.
  unfold Server.serve, run, Server.route, Server.post_users, try_catch, parse.
  destruct (Zod.parse _ body) as [errors|parsed]; [done|].
  unfold mbind, M_bind, mret, M_ret, await.
  by destruct (user_create _ _ db) as [[e|u] db'].
Qed.

(** [GET /users/:id]: the user, a 404, or a 500 when the parameter is not
    an integer of 32 bits. *)
Lemma get_users_id_unfold fmt db id :
  Server.serve fmt db (Server.GET_users_id id) =
  match intValue (Js.parseInt id) with
  | Some i =>
      if isInt32 i then
        match users db !! i with
        | Some user => ({| statusCode := 200; payload := User user |}, db)
        | None => ({| statusCode := 404; payload := Message "User not found" |}, db)
        end
      else ({| statusCode := 500;
               payload := Error (PrismaError (PrismaClientKnownRequestError P2020)) |}, db)
  | None => ({| statusCode := 500;
                payload := Error (PrismaError PrismaClientValidationError) |}, db)
  end.
Proof.
  unfold Server.serve, run, Server.route, Server.get_users_id,
    mbind, M_bind, await, user_findUnique.
  destruct (intValue (Js.parseInt id)) as [i|]; try done.
  destruct (isInt32 i); try done.
  by destruct (users db !! i).
Qed.

Lemma get_users_id_int fmt db id i :
  Js.parseInt id = Js.Int i → isInt32 i = true →
  Server.serve fmt db (Server.GET_users_id id) =
  match users db !! i with
  | Some user => ({| statusCode := 200; payload := User user |}, db)
  | None => ({| statusCode := 404; payload := Message "User not found" |}, db)
  end.
Proof. intros Hid Hi. by rewrite get_users_id_unfold, Hid, intValue_Int, Hi. Qed.

(** C1 (as amended): as long as the sequence of the ids has a value left,
    a body that the schema of the route accepts and whose email no stored
    user has is stored under the next id of the sequence with the name and
    the email of the body, and nothing else of the body; reading that id
    back, written as its decimal numeral or in any other way that
    [parseInt] reads as the id, returns the same record. *)
Theorem create_then_getById fmt db body parsed :
  wf db →
  (User_id_seq db ≤ 2147483647)%Z →
  Zod.parse (Server.createUserSchema fmt) body = inr parsed →
  (∀ i u, users db !! i = Some u → Js.Str (User.email u) ≠ Js.getProp body "email") →
  ∃ u db1,
    Server.serve fmt db (Server.POST_users body)
      = ({| statusCode := 201; payload := User u |}, db1) ∧
    User.id u = User_id_seq db ∧
    Js.Str (User.name u) = Js.getProp body "name" ∧
    Js.Str (User.email u) = Js.getProp body "email" ∧
    Server.serve fmt db1 (Server.GET_users_id (Numeral.numeral (User.id u)))
      = ({| statusCode := 200; payload := User u |}, db1) ∧
    ∀ id, Js.parseInt id = Js.Int (User.id u) →
          Server.serve fmt db1 (Server.GET_users_id id)
          = ({| statusCode := 200; payload := User u |}, db1).
Proof.
  intros Hwf Hlast Hparse Hnew.
  destruct (createUserSchema_accepts _ _ _ Hparse) as (n & e & Hn & He & _ & _ & Hpn & Hpe).
  pose proof (wf_sequence _ Hwf) as Hpos.
  rewrite post_users_unfold, Hparse, Hpn, Hpe. unfold user_create.
  rewrite (proj2 (exhausted_false _) Hlast).
  assert (emailTaken e None (users db) = false) as ->.
  { apply emailTaken_false. intros i u Hi Hu. exfalso.
    apply (Hnew i u Hi). by rewrite He, Hu. }
  rewrite bool_decide_eq_false_2.
  2:{ intros [u Hu]. apply (wf_fresh _ Hwf) in Hu. lia. }
  eexists _, _. split; [done|]. simpl. rewrite Hn, He.
  assert (∀ id, Js.parseInt id = Js.Int (User_id_seq db) →
            Server.serve fmt
              (with_users (next_User_id db)
                 (<[User_id_seq db := {| User.id := User_id_seq db; User.name := n;
                                         User.email := e |}]> (users db)))
              (Server.GET_users_id id)
            = ({| statusCode := 200;
                  payload := User {| User.id := User_id_seq db; User.name := n;
                                     User.email := e |} |},
               with_users (next_User_id db)
                 (<[User_id_seq db := {| User.id := User_id_seq db; User.name := n;
                                         User.email := e |}]> (users db)))) as Hget.
  { intros id Hid. rewrite (get_users_id_int _ _ _ _ Hid) by (apply isInt32_spec; lia).
    simpl. by rewrite lookup_insert_eq. }
  repeat split; [|done]. apply Hget, parseInt_numeral. lia.
Qed.

(** John Doe registers with a freshly migrated database and is read back
    as user 1. *)
Lemma create_then_getById_witness :
  ∃ u db1,
    Server.serve Samples.atSign emptyDb (Server.POST_users Samples.john)
      = ({| statusCode := 201; payload := User u |}, db1) ∧
    User.id u = 1 ∧
    Js.Str (User.name u) = Js.Str "John Doe" ∧
    Js.Str (User.email u) = Js.Str "john@example.com" ∧
    Server.serve Samples.atSign db1 (Server.GET_users_id (Numeral.numeral (User.id u)))
      = ({| statusCode := 200; payload := User u |}, db1) ∧
    ∀ id, Js.parseInt id = Js.Int (User.id u) →
          Server.serve Samples.atSign db1 (Server.GET_users_id id)
          = ({| statusCode := 200; payload := User u |}, db1).
Proof.
  apply (create_then_getById Samples.atSign emptyDb Samples.john
           (Js.Obj (Zod.strip (Server.createUserSchema Samples.atSign) Samples.john))).
  - apply empty_wf.
  - simpl. lia.
  - vm_compute. reflexivity.
  - intros i u Hi. simpl in Hi. by rewrite lookup_empty in Hi.
Defined.

(** C1 (counterexample): a body with an address is accepted, and the record
    that is stored and read back has no address. *)
Lemma create_drops_address :
  (∃ parsed, Zod.parse (Schemas.createUserSchema Samples.atSign) Samples.johnWithAddress = inr parsed) ∧
  Server.serve Samples.atSign emptyDb (Server.POST_users Samples.johnWithAddress)
    = ({| statusCode := 201; payload := User Samples.johnDoe |}, Samples.oneUser) ∧
  Server.serve Samples.atSign Samples.oneUser (Server.GET_users_id "1")
    = ({| statusCode := 200; payload := User Samples.johnDoe |}, Samples.oneUser) ∧
  ¬ Spec.keepsFields Samples.johnWithAddress (Spec.userJson Samples.johnDoe).
Proof.
  split; [eexists; vm_compute; reflexivity|].
  split; [vm_compute; reflexivity|]. split; [vm_compute; reflexivity|].
  intros Hkeeps. specialize (Hkeeps "address"). vm_compute in Hkeeps.
  by specialize (Hkeeps ltac:(discriminate)).
Qed.

(** [PUT /users/:id]: every failure is a 500. *)
Lemma put_users_id_unfold fmt db id body :
  Server.serve fmt db (Server.PUT_users_id id body) =
  match body with
  | Js.Undefined | Js.Null =>
      ({| statusCode := 500; payload := Error TypeError |}, db)
  | _ =>
      match user_update (Js.parseInt id) (Js.getProp body "name") (Js.getProp body "email") db with
      | (inr user, db') => ({| statusCode := 200; payload := User user |}, db')
      | (inl e, db') => ({| statusCode := 500; payload := Error (PrismaError e) |}, db')
      end
  end.
Proof.
  unfold Server.serve, run, Server.route, Server.put_users_id, mbind, M_bind, await.
  destruct body; simpl; try done;
    by destruct (user_update _ _ _ db) as [[e|u] db'].
Qed.

(** [DELETE /users/:id]: every failure is a 500. *)
Lemma delete_users_id_unfold fmt db id :
  Server.serve fmt db (Server.DELETE_users_id id) =
  match user_delete (Js.parseInt id) db with
  | (inr _, db') => ({| statusCode := 204; payload := Nothing |}, db')
  | (inl e, db') => ({| statusCode := 500; payload := Error (PrismaError e) |}, db')
  end.
Proof.
  unfold Server.serve, run, Server.route, Server.delete_users_id, mbind, M_bind, await.
  by destruct (user_delete _ db) as [[e|u] db'].
Qed.

(** [POST /user] of the demo application: a 200 with the message and the
    stored user, and every failure is a 500. *)
Lemma post_user_unfold db body :
  App.serve_post_user db body =
  match body with
  | Js.Undefined | Js.Null =>
      ({| statusCode := 500; payload := Error TypeError |}, db)
  | _ =>
      match user_create (Js.getProp body "name") (Js.getProp body "email") db with
      | (inr user, db') =>
          ({| statusCode := 200; payload := Created "User created successfully" user |}, db')
      | (inl e, db') => ({| statusCode := 500; payload := Error (PrismaError e) |}, db')
      end
  end.
Proof.
  unfold App.serve_post_user, run, App.post_user, mbind, M_bind, await.
  destruct body; simpl; try done;
    by destruct (user_create _ _ db) as [[e|u] db'].
Qed.

(** C2 (counterexample): the reply of the route to [{name: "Jo"}] carries no
    issue with a minimum of 4 characters. *)
Lemma jo_not_reported_below_4 :
  ¬ Spec.reportsTooShort "name" 4
      (Server.serve Samples.atSign emptyDb (Server.POST_users Samples.jo)).1.
Proof.
  intros (errors & i & Hp & Hi & _ & _ & Hmin).
  vm_compute in Hp. injection Hp as <-.
  repeat (apply elem_of_cons in Hi as [->|Hi]; [by vm_compute in Hmin|]).
  by apply elem_of_nil in Hi.
Qed.

(** C2 (as amended): the route answers [{name: "Jo"}] with a 400 that lists
    both violations, the name being shorter than the 3 characters of the
    schema of the route and the email being required; the schema of
    [schemas/user.js] finds the same two violations with its minimum of 4;
    and [{name: "John Doe", email: "john@example.com"}] is created with
    status 201 and id 1. *)
Theorem both_violations_in_one_pass fmt :
  fmt "john@example.com" = true →
  Server.serve fmt emptyDb (Server.POST_users Samples.jo)
    = ({| statusCode := 400;
          payload := Issues
            [ {| Zod.code := Zod.too_small; Zod.path := ["name"];
                 Zod.message := "Name must be at least 3 characters long";
                 Zod.minimum := Some 3 |};
              {| Zod.code := Zod.invalid_type; Zod.path := ["email"];
                 Zod.message := "Required"; Zod.minimum := None |} ] |}, emptyDb) ∧
  Zod.parse (Schemas.createUserSchema fmt) Samples.jo
    = inl [ {| Zod.code := Zod.too_small; Zod.path := ["name"];
               Zod.message := "Name must be at least 4 characters";
               Zod.minimum := Some 4 |};
            {| Zod.code := Zod.invalid_type; Zod.path := ["email"];
               Zod.message := "Required"; Zod.minimum := None |} ] ∧
  Server.serve fmt emptyDb (Server.POST_users Samples.john)
    = ({| statusCode := 201; payload := User Samples.johnDoe |}, Samples.oneUser).
Proof.
  intros Hfmt. split; [vm_compute; reflexivity|]. split; [vm_compute; reflexivity|].
  rewrite post_users_unfold.
  unfold Samples.john at 1.
  rewrite (createUserSchema_accepted fmt _ "John Doe" "john@example.com")
    by first [done | vm_compute; congruence].
  vm_compute. reflexivity.
Qed.

(** The format test of the examples accepts John Doe's email. *)
Lemma both_violations_in_one_pass_witness :
  Samples.atSign "john@example.com" = true ∧
  Server.serve Samples.atSign emptyDb (Server.POST_users Samples.john)
    = ({| statusCode := 201; payload := User Samples.johnDoe |}, Samples.oneUser).
Proof.
  split; [reflexivity|].
  apply (both_violations_in_one_pass Samples.atSign). reflexivity.
Defined.

(** Every issue of every field of the shape is among the issues of the
    object: a failing field does not hide the failures of the others. *)
Lemma objectIssues_field shape v k sch i :
  (k, sch) ∈ shape → i ∈ Zod.parseField sch [k] (Js.getProp v k) →
  i ∈ Zod.objectIssues shape v.
Proof.
  intros Hk Hi. unfold Zod.objectIssues. apply list_elem_of_In, in_concat.
  exists (Zod.parseField sch [k] (Js.getProp v k)). split; [|by apply list_elem_of_In].
  apply in_map_iff. exists (k, sch). split; [done|by apply list_elem_of_In].
Qed.

(** The route of the server names a missing [name] or [email] in a 400 and
    stores nothing. *)
Lemma post_users_missing_field fmt db fields k :
  k ∈ ["name"; "email"] → fields !! k = None →
  ∃ errors i,
    Server.serve fmt db (Server.POST_users (Js.Obj fields))
      = ({| statusCode := 400; payload := Issues errors |}, db) ∧
    i ∈ errors ∧ Zod.path i = [k] ∧ Zod.message i = "Required".
Proof.
  intros Hk Hmissing.
  assert (∃ sch, (k, sch) ∈ Server.createUserSchema fmt ∧
                 Zod.parseField sch [k] Js.Undefined = [Zod.invalidType "string" [k] Js.Undefined])
    as (sch & Hsch & Hfield).
  { unfold Server.createUserSchema.
    apply elem_of_cons in Hk as [->|Hk]; [eexists; split; [left|done]|].
    apply elem_of_cons in Hk as [->|Hk]; [eexists; split; [right; left|done]|].
    by apply elem_of_nil in Hk. }
  assert (Zod.invalidType "string" [k] Js.Undefined
          ∈ Zod.objectIssues (Server.createUserSchema fmt) (Js.Obj fields)) as Hin.
  { apply (objectIssues_field _ _ k sch); [done|].
    unfold Js.getProp. rewrite Hmissing. simpl. rewrite Hfield. by left. }
  rewrite post_users_unfold. unfold Zod.parse.
  destruct (Zod.objectIssues _ _) as [|i0 errors] eqn:Herrors.
  { by apply elem_of_nil in Hin. }
  eexists _, _. split; [done|]. split; [exact Hin|done].
Qed.

(** The route of the demo application does not validate: a missing [name]
    or [email] reaches the ORM, which rejects the query, and the answer is
    a 500. *)
Lemma post_user_missing_field db fields k :
  k ∈ ["name"; "email"] → fields !! k = None →
  App.serve_post_user db (Js.Obj fields)
  = ({| statusCode := 500;
        payload := Error (PrismaError PrismaClientValidationError) |}, db).
Proof.
  intros Hk Hmissing. rewrite post_user_unfold. unfold user_create, Js.getProp.
  apply elem_of_cons in Hk as [->|Hk].
  { by rewrite Hmissing. }
  apply elem_of_cons in Hk as [->|Hk]; [|by apply elem_of_nil in Hk].
  rewrite Hmissing. simpl. by destruct (default _ _).
Qed.

(** C3 (the code at the failing input): the demo application answers a body
    without [name] with a 500 that carries the error of the ORM; the body
    was never validated. *)
Theorem app_post_user_missing_name :
  App.serve_post_user emptyDb Samples.emailOnly
  = ({| statusCode := 500;
        payload := Error (PrismaError PrismaClientValidationError) |}, emptyDb).
Proof. vm_compute. reflexivity. Qed.

(** An id of 32 bits that resolves to no user: [GET] answers 404, [PUT] and
    [DELETE] answer 500, whatever the body. *)
Lemma unknown_id_replies fmt db id i body :
  Js.parseInt id = Js.Int i → isInt32 i = true → users db !! i = None →
  (Server.serve fmt db (Server.GET_users_id id)).1
    = {| statusCode := 404; payload := Message "User not found" |} ∧
  statusCode (Server.serve fmt db (Server.PUT_users_id id body)).1 = 500 ∧
  Server.serve fmt db (Server.DELETE_users_id id)
    = ({| statusCode := 500;
          payload := Error (PrismaError (PrismaClientKnownRequestError P2025)) |}, db).
Proof.
  intros Hid Hi Hnone. split; [|split].
  - by rewrite (get_users_id_int _ _ _ _ Hid Hi), Hnone.
  - rewrite put_users_id_unfold, Hid, user_update_int, Hnone by done.
    destruct body; try done; repeat case_match; by simplify_eq/=.
  - by rewrite delete_users_id_unfold, Hid, user_delete_int, Hnone.
Qed.

(** C4 (the code at the failing input): with no user stored, updating and
    deleting user 1 are answered with status 500 and the error of the ORM
    (record not found), where reading user 1 is answered with 404. *)
Theorem update_delete_unknown_id :
  Server.serve Samples.atSign emptyDb (Server.PUT_users_id "1" Samples.john)
    = ({| statusCode := 500;
          payload := Error (PrismaError (PrismaClientKnownRequestError P2025)) |}, emptyDb) ∧
  Server.serve Samples.atSign emptyDb (Server.DELETE_users_id "1")
    = ({| statusCode := 500;
          payload := Error (PrismaError (PrismaClientKnownRequestError P2025)) |}, emptyDb) ∧
  Server.serve Samples.atSign emptyDb (Server.GET_users_id "1")
    = ({| statusCode := 404; payload := Message "User not found" |}, emptyDb).
Proof. repeat split; vm_compute; reflexivity. Qed.

(** Deleting a stored user who owns no post succeeds. *)
Lemma delete_stored fmt db id i u :
  Js.parseInt id = Js.Int i → isInt32 i = true →
  users db !! i = Some u → hasPosts i (posts db) = false →
  Server.serve fmt db (Server.DELETE_users_id id)
  = ({| statusCode := 204; payload := Nothing |}, with_users db (delete i (users db))).
Proof.
  intros Hid Hi Hu Hposts.
  by rewrite delete_users_id_unfold, Hid, user_delete_int, Hu, Hposts.
Qed.

(** C5: after a delete that was answered 204, reading the same id is
    answered 404. *)
Theorem delete_then_getById fmt db id :
  statusCode (Server.serve fmt db (Server.DELETE_users_id id)).1 = 204 →
  Server.serve fmt (Server.serve fmt db (Server.DELETE_users_id id)).2
    (Server.GET_users_id id)
  = ({| statusCode := 404; payload := Message "User not found" |},
     (Server.serve fmt db (Server.DELETE_users_id id)).2).
Proof.
  rewrite delete_users_id_unfold. unfold user_delete.
  destruct (intValue (Js.parseInt id)) as [i|] eqn:Hid; try done.
  destruct (isInt32 i) eqn:Hi; try done.
  destruct (users db !! i) as [u|]; try done.
  destruct (hasPosts i (posts db)); try done.
  intros _. rewrite get_users_id_unfold, Hid, Hi. simpl. by rewrite lookup_delete_eq.
Qed.

(** John Doe is deleted and is not found afterwards. *)
Lemma delete_then_getById_witness :
  statusCode (Server.serve Samples.atSign Samples.oneUser (Server.DELETE_users_id "1")).1 = 204 ∧
  (Server.serve Samples.atSign
     (Server.serve Samples.atSign Samples.oneUser (Server.DELETE_users_id "1")).2
     (Server.GET_users_id "1")).1
  = {| statusCode := 404; payload := Message "User not found" |}.
Proof.
  split; [reflexivity|].
  rewrite (delete_then_getById Samples.atSign Samples.oneUser "1"); reflexivity.
Defined.

(** C6: updating a stored user with the empty patch is answered 200 with
    the record as it was, and the database is unchanged. *)
Theorem update_empty_patch fmt db id i u :
  wf db → Js.parseInt id = Js.Int i → users db !! i = Some u →
  Server.serve fmt db (Server.PUT_users_id id (Js.Obj ∅))
  = ({| statusCode := 200; payload := User u |}, db).
Proof.
  intros Hwf Hid Hu.
  rewrite put_users_id_unfold, Hid, user_update_int by (by eapply wf_user_int).
  unfold Js.getProp. rewrite !lookup_empty. simpl. rewrite Hu. simpl.
  assert (emailTaken (User.email u) (Some i) (users db) = false) as ->.
  { apply emailTaken_false. intros j v Hj He. f_equal.
    by apply (wf_unique _ Hwf j i v u). }
  destruct u as [ui un ue]. simpl. rewrite insert_id by done.
  by destruct db.
Qed.

(** The empty patch leaves John Doe as he is. *)
Lemma update_empty_patch_witness :
  Server.serve Samples.atSign Samples.oneUser (Server.PUT_users_id "1" (Js.Obj ∅))
  = ({| statusCode := 200; payload := User Samples.johnDoe |}, Samples.oneUser).
Proof.
  apply (update_empty_patch Samples.atSign Samples.oneUser "1" 1 Samples.johnDoe).
  - change Samples.oneUser with
      (Server.serve Samples.atSign emptyDb (Server.POST_users Samples.john)).2.
    apply serve_wf, empty_wf.
  - reflexivity.
  - reflexivity.
Defined.

(** [POST /posts]: a 400 with the issues, a 201 with the stored post, or a
    400 with the error of the ORM. *)
Lemma post_posts_unfold fmt db now body :
  Server.serve fmt db (Server.POST_posts now body) =
  match Zod.parse Server.createPostSchema body with
  | inl errors => ({| statusCode := 400; payload := Issues errors |}, db)
  | inr parsed =>
      match post_create now (Js.getProp parsed "title") (Js.getProp parsed "content")
              (Js.getProp parsed "userId") db with
      | (inr post, db') => ({| statusCode := 201; payload := Post post |}, db')
      | (inl e, db') => ({| statusCode := 400; payload := Error (PrismaError e) |}, db')
      end
  end.
Proof.
  unfold Server.serve, run, Server.route, Server.post_posts, try_catch, parse.
  destruct (Zod.parse _ body) as [errors|parsed]; [done|].
  unfold mbind, M_bind, mret, M_ret, await.
  by destruct (post_create _ _ _ _ db) as [[e|u] db'].
Qed.

(** C7 (counterexample): a well-formed post for user 1, sent when no user is
    stored, is answered with the foreign-key error of the store, not with a
    list of validation issues. *)
Lemma unknown_user_not_a_validation_failure :
  Server.serve Samples.atSign emptyDb (Server.POST_posts 0 Samples.firstPost)
    = ({| statusCode := 400;
          payload := Error (PrismaError (PrismaClientKnownRequestError P2003)) |},
       next_Post_id emptyDb) ∧
  ¬ Spec.validationFailure
      (Server.serve Samples.atSign emptyDb (Server.POST_posts 0 Samples.firstPost)).1.
Proof.
  split; [vm_compute; reflexivity|].
  intros [_ [errors Hp]]. vm_compute in Hp. discriminate.
Qed.

(** C7 (as amended): a post whose [userId] references no stored user is
    answered 400 and neither table changes. The payload is the list of
    issues when the body fails the schema. When the body passes it, the
    payload is the error of the ORM, passed on by the [catch]: for a
    [userId] that fits the 32 bits of the column it is the foreign-key
    error of the store, raised by the insertion, which has taken the next
    value of the sequence of the post ids (the sequence must have one
    left); for a larger [userId] that fits 64 bits it is the out-of-range
    error, raised before the insertion, and the database is as it was. *)
Theorem post_for_unknown_user fmt db now body :
  (∀ uid, Js.getProp body "userId" = Js.Num (Js.Int uid) → users db !! uid = None) →
  statusCode (Server.serve fmt db (Server.POST_posts now body)).1 = 400 ∧
  posts (Server.serve fmt db (Server.POST_posts now body)).2 = posts db ∧
  users (Server.serve fmt db (Server.POST_posts now body)).2 = users db ∧
  (∀ errors,
     Zod.parse Server.createPostSchema body = inl errors →
     payload (Server.serve fmt db (Server.POST_posts now body)).1 = Issues errors) ∧
  (∀ parsed uid,
     Zod.parse Server.createPostSchema body = inr parsed →
     Js.getProp body "userId" = Js.Num (Js.Int uid) →
     ((uid ≤ 2147483647)%Z → (Post_id_seq db ≤ 2147483647)%Z →
      Server.serve fmt db (Server.POST_posts now body)
      = ({| statusCode := 400;
            payload := Error (PrismaError (PrismaClientKnownRequestError P2003)) |},
         next_Post_id db)) ∧
     ((2147483647 < uid ≤ 9223372036854775807)%Z →
      Server.serve fmt db (Server.POST_posts now body)
      = ({| statusCode := 400;
            payload := Error (PrismaError (PrismaClientKnownRequestError P2020)) |},
         db))).
Proof.
  intros Hunknown. rewrite post_posts_unfold.
  destruct (Zod.parse _ body) as [errors|parsed] eqn:Hparse.
  { repeat split; try done. by intros ? [= <-]. }
  destruct (createPostSchema_accepts _ _ Hparse)
    as (t & c & uid & _ & _ & Hu & _ & _ & Hpos & -> & -> & ->).
  assert (users db !! uid = None) as Hnone by eauto.
  assert (∀ uid', Js.getProp body "userId" = Js.Num (Js.Int uid') → uid' = uid)
    as Hsame by (intros uid'; rewrite Hu; by intros [= ->]).
  unfold post_create, optionalInt, intValue.
  case_bool_decide as H64; simpl.
  { destruct (isInt32 uid) eqn:H32.
    - apply isInt32_spec in H32.
      destruct (exhausted (Post_id_seq db)) eqn:Hlast.
      + apply bool_decide_eq_true in Hlast.
        do 4 (split; [done|]). intros ? uid' _ ->%Hsame. split; intros; lia.
      + rewrite bool_decide_eq_false_2 by (rewrite Hnone; by intros [? ?]).
        do 4 (split; [done|]). intros ? uid' _ ->%Hsame. split; intros; [done|lia].
    - apply isInt32_false in H32.
      do 4 (split; [done|]). intros ? uid' _ ->%Hsame. split; intros; [lia|done]. }
  do 4 (split; [done|]). intros ? uid' _ ->%Hsame. split; intros; lia.
Qed.

(** The first post, sent before any user has registered, and a post for
    user 2147483648. *)
Lemma post_for_unknown_user_witness :
  Server.serve Samples.atSign emptyDb (Server.POST_posts 0 Samples.firstPost)
    = ({| statusCode := 400;
          payload := Error (PrismaError (PrismaClientKnownRequestError P2003)) |},
       next_Post_id emptyDb) ∧
  Server.serve Samples.atSign emptyDb (Server.POST_posts 0 Samples.farPost)
    = ({| statusCode := 400;
          payload := Error (PrismaError (PrismaClientKnownRequestError P2020)) |},
       emptyDb).
Proof.
  split.
  - refine (proj1 (proj2 (proj2 (proj2 (proj2
        (post_for_unknown_user Samples.atSign emptyDb 0 Samples.firstPost _)))) 
        (Js.Obj (Zod.strip Server.createPostSchema Samples.firstPost)) 1 _ _) _ _);
      [by intros uid _ | by vm_compute | reflexivity | lia | simpl; lia].
  - refine (proj2 (proj2 (proj2 (proj2 (proj2
        (post_for_unknown_user Samples.atSign emptyDb 0 Samples.farPost _)))) 
        (Js.Obj (Zod.strip Server.createPostSchema Samples.farPost)) 2147483648 _ _) _);
      [by intros uid _ | by vm_compute | reflexivity | lia].
Defined.

(** C8: the emails of the stored users are pairwise distinct in every
    database that the server can reach from a freshly migrated one, and
    every request, whether it creates, updates, deletes or reads, keeps
    them pairwise distinct; so does the route of the demo application. *)
Theorem emails_stay_unique fmt :
  (∀ db, Server.reachable fmt db → uniqueEmails (users db)) ∧
  (∀ db req, uniqueEmails (users db) →
             uniqueEmails (users (Server.serve fmt db req).2)) ∧
  (∀ db body, uniqueEmails (users db) →
              uniqueEmails (users (App.serve_post_user db body).2)).
Proof.
  split; [|split].
  - intros db Hdb. by apply wf_unique, (reachable_wf fmt).
  - intros db req. apply serve_unique.
  - intros db body. apply post_user_unique.
Qed.

(** The second registration of John Doe's email is refused and the table
    is as it was. *)
Lemma emails_stay_unique_witness :
  uniqueEmails (users Samples.oneUser) ∧
  uniqueEmails
    (users (Server.serve Samples.atSign Samples.oneUser (Server.POST_users Samples.john)).2) ∧
  users (Server.serve Samples.atSign Samples.oneUser (Server.POST_users Samples.john)).2
    = {[ 1 := Samples.johnDoe ]}.
Proof.
  assert (uniqueEmails (users Samples.oneUser)) as Hone.
  { apply (proj1 (emails_stay_unique Samples.atSign)).
    change Samples.oneUser with
      (Server.serve Samples.atSign emptyDb (Server.POST_users Samples.john)).2.
    apply Server.reachable_serve, Server.reachable_empty. }
  split; [exact Hone|]. split; [|vm_compute; reflexivity].
  apply (proj1 (proj2 (emails_stay_unique Samples.atSign))). exact Hone.
Defined.

(** C9 (counterexample): the route of the demo application creates the user
    and answers 200. *)
Lemma app_post_user_answers_200 :
  App.serve_post_user emptyDb Samples.john
    = ({| statusCode := 200;
          payload := Created "User created successfully" Samples.johnDoe |},
       Samples.oneUser) ∧
  statusCode (App.serve_post_user emptyDb Samples.john).1 ≠ 201.
Proof. split; [vm_compute; reflexivity|]. vm_compute. discriminate. Qed.

(** C9 (as amended): a request that the server answers without an error is
    answered 201 by the routes that create, 204 by the routes that delete
    and 200 by the others; the route of the demo application, which also
    creates, answers 200. *)
Theorem success_codes fmt db :
  (∀ req, statusCode (Server.serve fmt db req).1 < 400 →
          statusCode (Server.serve fmt db req).1 = Spec.successCode req) ∧
  (∀ body, statusCode (App.serve_post_user db body).1 < 400 →
           statusCode (App.serve_post_user db body).1 = 200).
Proof.
  split.
  - intros req.
    destruct req; simpl;
      unfold Server.serve, run, Server.route, Server.post_users, Server.get_users,
        Server.get_users_id, Server.put_users_id, Server.delete_users_id,
        Server.post_posts, Server.get_posts, Server.get_posts_id,
        Server.put_posts_id, Server.delete_posts_id, try_catch, parse, destructure,
        send, status_send, throw, mbind, M_bind, mret, M_ret, await;
      repeat case_match; simplify_eq/=; lia.
  - intros body. rewrite post_user_unfold.
    repeat case_match; simplify_eq/=; lia.
Qed.

(** A creation, a deletion and the creation of the demo application. *)
Lemma success_codes_witness :
  statusCode (Server.serve Samples.atSign emptyDb (Server.POST_users Samples.john)).1 = 201 ∧
  statusCode (Server.serve Samples.atSign Samples.oneUser (Server.DELETE_users_id "1")).1 = 204 ∧
  statusCode (App.serve_post_user emptyDb Samples.john).1 = 200.
Proof.
  split; [|split].
  - apply (proj1 (success_codes Samples.atSign emptyDb) (Server.POST_users Samples.john)).
    vm_compute. reflexivity.
  - apply (proj1 (success_codes Samples.atSign Samples.oneUser) (Server.DELETE_users_id "1")).
    vm_compute. reflexivity.
  - apply (proj2 (success_codes Samples.atSign emptyDb) Samples.john).
    vm_compute. reflexivity.
Defined.

(** C10 (counterexample): [0x1] starts with the decimal digit 0 followed by
    a character that is not a digit, and the routes target user 1, not user
    0; [+1] starts with no digit, and it parses to 1 all the same. *)
Lemma hex_and_sign_are_parsed :
  Js.allDecimalDigits "0" = true ∧ Js.startsWithDecimalDigit "x1" = false ∧
  Js.decimalValue "0" = 0 ∧
  Js.parseInt ("0" +:+ "x1") = Js.Int 1 ∧
  Server.serve Samples.atSign Samples.oneUser (Server.GET_users_id ("0" +:+ "x1"))
    = ({| statusCode := 200; payload := User Samples.johnDoe |}, Samples.oneUser) ∧
  Server.serve Samples.atSign Samples.oneUser (Server.DELETE_users_id ("0" +:+ "x1"))
    = ({| statusCode := 204; payload := Nothing |},
       with_users Samples.oneUser (delete 1 (users Samples.oneUser))) ∧
  Js.startsWithDecimalDigit "+1" = false ∧
  Js.parseInt "+1" = Js.Int 1 ∧ Js.parseInt "+1" ≠ Js.NaN.
Proof. repeat split; try (vm_compute; reflexivity). discriminate. Qed.

(** A parameter that is read as no integer of 32 bits resolves to no user:
    the three routes answer 500 and leave the database as it is. *)
Lemma out_of_range_replies fmt db id body :
  noInt32 (Js.parseInt id) →
  statusCode (Server.serve fmt db (Server.GET_users_id id)).1 = 500 ∧
  (Server.serve fmt db (Server.GET_users_id id)).2 = db ∧
  statusCode (Server.serve fmt db (Server.PUT_users_id id body)).1 = 500 ∧
  (Server.serve fmt db (Server.PUT_users_id id body)).2 = db ∧
  statusCode (Server.serve fmt db (Server.DELETE_users_id id)).1 = 500 ∧
  (Server.serve fmt db (Server.DELETE_users_id id)).2 = db.
Proof.
  intros Hn.
  destruct (user_findUnique_noInt32 _ db Hn) as [e1 H1].
  destruct (user_update_noInt32 _ (Js.getProp body "name") (Js.getProp body "email") db Hn)
    as [e2 H2].
  destruct (user_delete_noInt32 _ db Hn) as [e3 H3].
  rewrite put_users_id_unfold, delete_users_id_unfold, H2, H3.
  unfold Server.serve, run, Server.route, Server.get_users_id, mbind, M_bind, await.
  rewrite H1. by destruct body.
Qed.

(** The sign is read before the prefix and the digits. *)
Lemma parseInt_sign s :
  Js.trimStart s = s → Js.stripSign s = (1, s) →
  Js.parseInt (String "+" s) = Js.parseInt s ∧
  Js.parseInt (String "-" s) = Js.negate (Js.parseInt s).
Proof.
  intros Htrim Hsign. unfold Js.parseInt. rewrite Htrim, Hsign. simpl.
  destruct (Js.stripPrefix s) as [radix s'].
  by destruct (Js.digitsPrefix radix s' None).
Qed.

(** C10 (as amended): [parseInt] skips leading white space and one sign,
    reads hexadecimal digits after [0x] or [0X] and decimal digits
    otherwise, and rounds what it has read to a number. So a parameter made
    of decimal digits, followed by anything that does not start with a
    digit, and not starting with [0x] or [0X], is read as the number value
    of what the digits denote. If that is at most 2147483647, the largest
    id of the 32-bit column, the parameter targets the user with that id;
    if it is more, the routes answer 500 and the database is unchanged. A
    parameter that starts with neither white space, nor a sign, nor a
    decimal digit parses to [NaN]; and a parameter that parses to [NaN]
    targets no user: the ORM rejects the query, the answer is a 500 and the
    database is unchanged. *)
Theorem path_parameter_parsing fmt db :
  (∀ c s, Js.isWhiteSpace c = true → Js.parseInt (String c s) = Js.parseInt s) ∧
  (∀ s, Js.trimStart s = s → Js.stripSign s = (1, s) →
     Js.parseInt (String "+" s) = Js.parseInt s ∧
     Js.parseInt (String "-" s) = Js.negate (Js.parseInt s)) ∧
  (∀ x s, x = "x"%char ∨ x = "X"%char →
     Js.parseInt (String "0" (String x s))
     = match Js.digitsPrefix 16 s None with
       | Some m => Js.toNumber m
       | None => Js.NaN
       end) ∧
  (∀ digits rest body,
     digits ≠ "" → Js.allDecimalDigits digits = true →
     Js.startsWithDecimalDigit rest = false →
     (Js.stripPrefix (digits +:+ rest)).1 = 10 →
     Js.parseInt (digits +:+ rest) = Js.toNumber (Js.decimalValue digits) ∧
     ((Js.decimalValue digits ≤ 2147483647)%Z →
      Js.parseInt (digits +:+ rest) = Js.Int (Js.decimalValue digits) ∧
      Server.serve fmt db (Server.GET_users_id (digits +:+ rest))
        = (match users db !! Js.decimalValue digits with
           | Some user => {| statusCode := 200; payload := User user |}
           | None => {| statusCode := 404; payload := Message "User not found" |}
           end, db) ∧
      Server.serve fmt db (Server.PUT_users_id (digits +:+ rest) body)
        = run (body ← destructure body;
               user ← await (user_update (Js.Int (Js.decimalValue digits))
                               (Js.getProp body "name") (Js.getProp body "email"));
               send (User user)) db ∧
      Server.serve fmt db (Server.DELETE_users_id (digits +:+ rest))
        = run (_ ← await (user_delete (Js.Int (Js.decimalValue digits)));
               status_send 204 Nothing) db) ∧
     ((2147483647 < Js.decimalValue digits)%Z →
      statusCode (Server.serve fmt db (Server.GET_users_id (digits +:+ rest))).1 = 500 ∧
      (Server.serve fmt db (Server.GET_users_id (digits +:+ rest))).2 = db ∧
      statusCode (Server.serve fmt db (Server.PUT_users_id (digits +:+ rest) body)).1 = 500 ∧
      (Server.serve fmt db (Server.PUT_users_id (digits +:+ rest) body)).2 = db ∧
      statusCode (Server.serve fmt db (Server.DELETE_users_id (digits +:+ rest))).1 = 500 ∧
      (Server.serve fmt db (Server.DELETE_users_id (digits +:+ rest))).2 = db)) ∧
  (∀ c rest,
     Js.isWhiteSpace c = false → c ≠ "+"%char → c ≠ "-"%char →
     Js.isDecimalDigit c = false →
     Js.parseInt (String c rest) = Js.NaN) ∧
  (∀ id body,
     Js.parseInt id = Js.NaN →
     Server.serve fmt db (Server.GET_users_id id)
       = ({| statusCode := 500;
             payload := Error (PrismaError PrismaClientValidationError) |}, db) ∧
     statusCode (Server.serve fmt db (Server.PUT_users_id id body)).1 = 500 ∧
     (Server.serve fmt db (Server.PUT_users_id id body)).2 = db ∧
     Server.serve fmt db (Server.DELETE_users_id id)
       = ({| statusCode := 500;
             payload := Error (PrismaError PrismaClientValidationError) |}, db)).
Proof.
  split; [|split; [|split; [|split; [|split]]]].
  - intros c s Hc. unfold Js.parseInt. simpl. by rewrite Hc.
  - apply parseInt_sign.
  - intros x s [-> | ->]; unfold Js.parseInt; simpl;
      by destruct (Js.digitsPrefix 16 s None).
  - intros digits rest body Hne Hdigits Hrest Hprefix.
    pose proof (parseInt_decimal digits rest Hne Hdigits Hrest Hprefix) as Hparse.
    split; [done|]. split.
    + intros Hsmall.
      assert (0 ≤ Js.decimalValue digits)%Z as Hpos.
      { unfold Js.decimalValue. apply decimalFrom_nonneg; [lia|done]. }
      rewrite toNumber_small in Hparse by lia.
      split; [done|]. split; [|split].
      * rewrite (get_users_id_int _ _ _ _ Hparse) by (apply isInt32_spec; lia).
        by destruct (users db !! _).
      * unfold Server.serve, Server.route, Server.put_users_id. by rewrite Hparse.
      * unfold Server.serve, Server.route, Server.delete_users_id. by rewrite Hparse.
    + intros Hlarge. apply out_of_range_replies. rewrite Hparse.
      destruct (toNumber_large _ Hlarge) as [(d & -> & Hd) | ->].
      * apply noInt32_Int, isInt32_false. lia.
      * apply noInt32_Inf.
  - apply parseInt_no_digit.
  - intros id body Hnan. split; [|split; [|split]].
    + by rewrite get_users_id_unfold, Hnan.
    + rewrite put_users_id_unfold, Hnan. by destruct body.
    + rewrite put_users_id_unfold, Hnan. by destruct body.
    + by rewrite delete_users_id_unfold, Hnan.
Qed.

(** [1abc] targets user 1, [2147483648] targets no user and is answered
    500, [0x1f] is read as 31, and [abc] targets no user. *)
Lemma path_parameter_parsing_witness :
  Js.parseInt ("1" +:+ "abc") = Js.Int 1 ∧
  Js.parseInt "0x1f" = Js.Int 31 ∧
  Server.serve Samples.atSign Samples.oneUser (Server.GET_users_id ("1" +:+ "abc"))
    = ({| statusCode := 200; payload := User Samples.johnDoe |}, Samples.oneUser) ∧
  statusCode
    (Server.serve Samples.atSign Samples.oneUser
       (Server.GET_users_id ("2147483648" +:+ ""))).1 = 500 ∧
  Js.parseInt (String "-" "1") = Js.negate (Js.parseInt "1") ∧
  Server.serve Samples.atSign Samples.oneUser (Server.GET_users_id "abc")
    = ({| statusCode := 500;
          payload := Error (PrismaError PrismaClientValidationError) |}, Samples.oneUser).
Proof.
  pose proof (path_parameter_parsing Samples.atSign Samples.oneUser)
    as (_ & Hsign & Hhex & Hdecimal & Hnone & Hnan).
  destruct (Hdecimal "1" "abc" Js.Undefined) as (_ & Hsmall & _);
    [done | reflexivity | reflexivity | reflexivity |].
  destruct Hsmall as (Hparse & Hget & _); [vm_compute; discriminate|].
  destruct (Hdecimal "2147483648" "" Js.Undefined) as (_ & _ & Hlarge);
    [done | reflexivity | reflexivity | reflexivity |].
  destruct Hlarge as (Hfar & _); [reflexivity|].
  destruct (Hsign "1") as [_ Hminus]; [reflexivity | reflexivity |].
  destruct (Hnan "abc" Js.Undefined) as (Habc & _).
  { by apply (Hnone "a"%char "bc"). }
  split; [exact Hparse|]. split; [exact (Hhex "x"%char "1f" (or_introl eq_refl))|].
  split; [exact Hget|]. split; [exact Hfar|].
  split; [exact Hminus | exact Habc].
Defined.

(** * More of the code *)

(** ** The validator *)

Module ZodMore.

Lemma checkString_path p s c i : i ∈ Zod.checkString p s c → Zod.path i = p.
Proof.
  destruct c as [n msg|format msg]; simpl.
  - case_bool_decide; [|by intros ?%elem_of_nil]. by intros ->%list_elem_of_singleton.
  - destruct (format s); [by intros ?%elem_of_nil|]. by intros ->%list_elem_of_singleton.
Qed.

Lemma checkNumber_path p n c i : i ∈ Zod.checkNumber p n c → Zod.path i = p.
Proof.
  destruct c as [msg|]; simpl.
  - destruct (Js.isInteger n); [by intros ?%elem_of_nil|].
    by intros ->%list_elem_of_singleton.
  - destruct (Js.isPositive n); [by intros ?%elem_of_nil|].
    by intros ->%list_elem_of_singleton.
Qed.

Lemma concat_map_path {A} (f : A → list Zod.ZodIssue) (l : list A) p i :
  (∀ a j, j ∈ f a → Zod.path j = p) → i ∈ concat (map f l) → Zod.path i = p.
Proof.
  intros Hf Hi. apply list_elem_of_In, in_concat in Hi as (js & His & Hi).
  apply in_map_iff in His as (a & <- & _). apply (Hf a). by apply list_elem_of_In.
Qed.

Lemma parseField_path sch p v i : i ∈ Zod.parseField sch p v → Zod.path i = p.
Proof.
  induction sch as [checks|checks|inner IH]; simpl.
  - destruct v; try by intros ->%list_elem_of_singleton.
    apply concat_map_path. intros c j. apply checkString_path.
  - destruct v as [| | |n| | |]; try by intros ->%list_elem_of_singleton.
    destruct n; try by intros ->%list_elem_of_singleton.
    all: apply concat_map_path; intros c j; apply checkNumber_path.
  - destruct v; try done; by intros ?%elem_of_nil.
Qed.

Lemma objectIssues_path shape v i :
  i ∈ Zod.objectIssues shape v → ∃ k, k ∈ shape.*1 ∧ Zod.path i = [k].
Proof.
  unfold Zod.objectIssues. intros Hi.
  apply list_elem_of_In, in_concat in Hi as (js & His & Hi).
  apply in_map_iff in His as ([k sch] & <- & Hk). exists k. split.
  - apply list_elem_of_fmap. exists (k, sch). split; [done|by apply list_elem_of_In].
  - apply (parseField_path sch _ (Js.getProp v k)). by apply list_elem_of_In.
Qed.

(** The parsed object and the issues depend on the input only through the
    keys of the shape. *)
Lemma strip_ext shape v w :
  (∀ k, k ∈ shape.*1 → Js.getProp v k = Js.getProp w k) →
  Zod.strip shape v = Zod.strip shape w.
Proof.
  intros Hagree. apply map_eq. intros k. rewrite !strip_lookup.
  case_decide; [|done]. by rewrite Hagree.
Qed.

Lemma objectIssues_ext shape v w :
  (∀ k, k ∈ shape.*1 → Js.getProp v k = Js.getProp w k) →
  Zod.objectIssues shape v = Zod.objectIssues shape w.
Proof.
  unfold Zod.objectIssues. induction shape as [|[k sch] shape IH]; [done|].
  intros Hagree. cbn [map concat fst snd]. rewrite Hagree by (simpl; left).
  f_equal. apply IH. intros k' Hk'. apply Hagree. simpl. by right.
Qed.

End ZodMore.
Import ZodMore.

(** X1: when an object is rejected, the list of issues is not empty and
    every issue names one field of the schema. *)
Theorem rejected_object_names_fields shape fields errors :
  Zod.parse shape (Js.Obj fields) = inl errors →
  errors ≠ [] ∧ ∀ i, i ∈ errors → ∃ k, k ∈ shape.*1 ∧ Zod.path i = [k].
Proof.
  unfold Zod.parse. destruct (Zod.objectIssues _ _) as [|i0 js] eqn:Hissues; [done|].
  intros [= <-]. split; [done|]. intros i Hi. apply (objectIssues_path shape (Js.Obj fields)).
  by rewrite Hissues.
Qed.

(** [{name: "Jo"}] against the schema of [schemas/user.js]. *)
Lemma rejected_object_names_fields_witness :
  [ {| Zod.code := Zod.too_small; Zod.path := ["name"];
       Zod.message := "Name must be at least 4 characters";
       Zod.minimum := Some 4 |};
    {| Zod.code := Zod.invalid_type; Zod.path := ["email"];
       Zod.message := "Required"; Zod.minimum := None |} ] ≠ [] ∧
  ∀ i, i ∈ [ {| Zod.code := Zod.too_small; Zod.path := ["name"];
                Zod.message := "Name must be at least 4 characters";
                Zod.minimum := Some 4 |};
             {| Zod.code := Zod.invalid_type; Zod.path := ["email"];
                Zod.message := "Required"; Zod.minimum := None |} ] →
       ∃ k, k ∈ (Schemas.createUserSchema Samples.atSign).*1 ∧ Zod.path i = [k].
Proof.
  apply (rejected_object_names_fields (Schemas.createUserSchema Samples.atSign)
           {[ "name" := Js.Str "Jo" ]}).
  vm_compute. reflexivity.
Defined.

(** X2: two objects that agree on the keys of the schema are parsed alike,
    and what parsing returns is parsed to itself. *)
Theorem parse_only_reads_the_shape shape :
  (∀ f g, (∀ k, k ∈ shape.*1 → Js.getProp (Js.Obj f) k = Js.getProp (Js.Obj g) k) →
          Zod.parse shape (Js.Obj f) = Zod.parse shape (Js.Obj g)) ∧
  (∀ v parsed, Zod.parse shape v = inr parsed →
               Zod.parse shape parsed = inr parsed ∧
               ∀ k, Js.getProp parsed k =
                    if decide (k ∈ shape.*1) then Js.getProp v k else Js.Undefined).
Proof.
  split.
  - intros f g Hagree. unfold Zod.parse.
    by rewrite (objectIssues_ext shape _ _ Hagree), (strip_ext shape _ _ Hagree).
  - intros v parsed (_ & Hissues & ->)%parse_inr_object.
    assert (∀ k, k ∈ shape.*1 →
              Js.getProp (Js.Obj (Zod.strip shape v)) k = Js.getProp v k) as Hsame
      by (intros k; apply getProp_strip).
    split.
    + unfold Zod.parse. rewrite (objectIssues_ext shape _ v Hsame), Hissues.
      by rewrite (strip_ext shape _ v Hsame).
    + intros k. case_decide; [by apply Hsame|].
      unfold Js.getProp. by rewrite strip_lookup, decide_False.
Qed.

(** John Doe's body with an address, against the schema of the route: the
    address is dropped and the rest is parsed to itself. *)
Lemma parse_only_reads_the_shape_witness :
  Zod.parse (Server.createUserSchema Samples.atSign) Samples.johnWithAddress
    = Zod.parse (Server.createUserSchema Samples.atSign) Samples.john ∧
  Zod.parse (Server.createUserSchema Samples.atSign) Samples.john = inr Samples.john.
Proof.
  split.
  - apply (proj1 (parse_only_reads_the_shape (Server.createUserSchema Samples.atSign))).
    intros k Hk. simpl in Hk.
    apply elem_of_cons in Hk as [->|Hk]; [reflexivity|].
    apply elem_of_cons in Hk as [->|Hk]; [reflexivity|]. by apply elem_of_nil in Hk.
  - assert (Zod.parse (Server.createUserSchema Samples.atSign) Samples.johnWithAddress
            = inr Samples.john) as Hparse by (vm_compute; reflexivity).
    apply (proj2 (parse_only_reads_the_shape (Server.createUserSchema Samples.atSign))
             _ _ Hparse).
Defined.

Module SchemaFacts.

Lemma parse_accepts shape v :
  (∃ parsed, Zod.parse shape v = inr parsed) ↔
  (∃ fields, v = Js.Obj fields) ∧ Zod.objectIssues shape v = [].
Proof.
  split.
  - intros [parsed (Hobj & Hissues & _)%parse_inr_object]. done.
  - intros [[fields ->] Hissues]. unfold Zod.parse. rewrite Hissues. eauto.
Qed.

Lemma string_min_ok n msg p v :
  Zod.parseField (Zod.string [Zod.min n msg]) p v = [] ↔
  ∃ s, v = Js.Str s ∧ (n ≤ Z.of_nat (String.length s))%Z.
Proof.
  split; [apply parseField_string_min|].
  intros (s & -> & Hlen). simpl. by rewrite bool_decide_eq_false_2 by lia.
Qed.

Lemma string_email_ok fmt msg p v :
  Zod.parseField (Zod.string [Zod.email fmt msg]) p v = [] ↔
  ∃ s, v = Js.Str s ∧ fmt s = true.
Proof.
  split; [apply parseField_string_email|].
  intros (s & -> & Hfmt). simpl. by rewrite Hfmt.
Qed.

Lemma optional_string_ok p v :
  Zod.parseField (Zod.optional (Zod.string [])) p v = [] ↔
  v = Js.Undefined ∨ ∃ s, v = Js.Str s.
Proof.
  split.
  - destruct v; simpl; try done; eauto.
  - intros [->|[s ->]]; done.
Qed.

Lemma optional_number_ok p v :
  Zod.parseField (Zod.optional (Zod.number [])) p v = [] ↔
  v = Js.Undefined ∨ ∃ n, v = Js.Num n ∧ n ≠ Js.NaN.
Proof.
  split.
  - destruct v as [| | |[]| | |]; simpl; try done; eauto.
  - intros [->|(n & -> & Hn)]; [done|]. by destruct n.
Qed.

Lemma number_int_positive_ok msg p v :
  Zod.parseField (Zod.number [Zod.int msg; Zod.positive]) p v = [] ↔
  ∃ z, v = Js.Num (Js.Int z) ∧ (0 < z)%Z.
Proof.
  split; [apply parseField_number_int_positive|].
  intros (z & -> & Hz). simpl. by rewrite bool_decide_eq_true_2.
Qed.

End SchemaFacts.
Import SchemaFacts.

(** X3: the schema of [schemas/user.js] accepts exactly the objects whose
    [name] is a string of at least 4 characters, whose [email] is a string
    in the email format and whose [address] is absent or a string. *)
Theorem user_js_schema_accepts fmt body :
  (∃ parsed, Zod.parse (Schemas.createUserSchema fmt) body = inr parsed) ↔
  (∃ fields, body = Js.Obj fields) ∧
  (∃ n, Js.getProp body "name" = Js.Str n ∧ (4 ≤ Z.of_nat (String.length n))%Z) ∧
  (∃ e, Js.getProp body "email" = Js.Str e ∧ fmt e = true) ∧
  (Js.getProp body "address" = Js.Undefined ∨ ∃ a, Js.getProp body "address" = Js.Str a).
Proof.
  rewrite parse_accepts. unfold Zod.objectIssues, Schemas.createUserSchema.
  cbn [map concat fst snd]. rewrite app_nil_r.
  rewrite !app_nil, string_min_ok, string_email_ok, optional_string_ok.
  done.
Qed.

(** X4: the schemas of the server. The user schema accepts exactly the
    objects with a [name] of at least 3 characters and an [email] in the
    email format; the post schema accepts exactly the objects with a
    [title] of at least 3 characters, a [content] of at least 10 and a
    [userId] that is a positive integer. *)
Theorem server_schemas_accept fmt body :
  ((∃ parsed, Zod.parse (Server.createUserSchema fmt) body = inr parsed) ↔
   (∃ fields, body = Js.Obj fields) ∧
   (∃ n, Js.getProp body "name" = Js.Str n ∧ (3 ≤ Z.of_nat (String.length n))%Z) ∧
   (∃ e, Js.getProp body "email" = Js.Str e ∧ fmt e = true)) ∧
  ((∃ parsed, Zod.parse Server.createPostSchema body = inr parsed) ↔
   (∃ fields, body = Js.Obj fields) ∧
   (∃ t, Js.getProp body "title" = Js.Str t ∧ (3 ≤ Z.of_nat (String.length t))%Z) ∧
   (∃ c, Js.getProp body "content" = Js.Str c ∧ (10 ≤ Z.of_nat (String.length c))%Z) ∧
   (∃ uid, Js.getProp body "userId" = Js.Num (Js.Int uid) ∧ (0 < uid)%Z)).
Proof.
  split.
  - rewrite parse_accepts. unfold Zod.objectIssues, Server.createUserSchema.
    cbn [map concat fst snd]. rewrite app_nil_r.
    rewrite !app_nil, string_min_ok, string_email_ok. done.
  - rewrite parse_accepts. unfold Zod.objectIssues, Server.createPostSchema.
    cbn [map concat fst snd]. rewrite app_nil_r.
    rewrite !app_nil, !string_min_ok, number_int_positive_ok. done.
Qed.

(** X5: [UserSchema] of the validation notes accepts exactly the objects
    with a [username] of at least 5 characters, an [email] in the email
    format, a [password] of at least 8 characters and an [age] that is
    absent or a number; and it returns [validUserData] as it is. *)
Theorem notes_UserSchema_accepts fmt :
  (∀ body,
     (∃ parsed, Zod.parse (Notes.UserSchema fmt) body = inr parsed) ↔
     (∃ fields, body = Js.Obj fields) ∧
     (∃ u, Js.getProp body "username" = Js.Str u ∧ (5 ≤ Z.of_nat (String.length u))%Z) ∧
     (∃ e, Js.getProp body "email" = Js.Str e ∧ fmt e = true) ∧
     (∃ p, Js.getProp body "password" = Js.Str p ∧ (8 ≤ Z.of_nat (String.length p))%Z) ∧
     (Js.getProp body "age" = Js.Undefined ∨
      ∃ n, Js.getProp body "age" = Js.Num n ∧ n ≠ Js.NaN)) ∧
  (fmt "john@example.com" = true → Notes.myUser fmt = inr Notes.validUserData).
Proof.
  assert (∀ body,
     (∃ parsed, Zod.parse (Notes.UserSchema fmt) body = inr parsed) ↔
     (∃ fields, body = Js.Obj fields) ∧
     (∃ u, Js.getProp body "username" = Js.Str u ∧ (5 ≤ Z.of_nat (String.length u))%Z) ∧
     (∃ e, Js.getProp body "email" = Js.Str e ∧ fmt e = true) ∧
     (∃ p, Js.getProp body "password" = Js.Str p ∧ (8 ≤ Z.of_nat (String.length p))%Z) ∧
     (Js.getProp body "age" = Js.Undefined ∨
      ∃ n, Js.getProp body "age" = Js.Num n ∧ n ≠ Js.NaN)) as Hiff.
  { intros body. rewrite parse_accepts. unfold Zod.objectIssues, Notes.UserSchema.
    cbn [map concat fst snd]. rewrite app_nil_r.
    rewrite !app_nil, !string_min_ok, string_email_ok, optional_number_ok. done. }
  split; [exact Hiff|]. intros Hfmt. unfold Notes.myUser.
  destruct (proj2 (Hiff Notes.validUserData)) as [parsed Hparsed].
  { split; [by eexists|]. split; [exists "johnsmith"; split; [reflexivity|done]|].
    split; [exists "john@example.com"; split; [reflexivity|done]|].
    split; [exists "strongpassword123"; split; [reflexivity|done]|]. by left. }
  rewrite Hparsed. apply parse_inr_object in Hparsed as (_ & _ & ->).
  reflexivity.
Qed.

(** ** The user routes *)

(** X6: [POST /users] reads nothing of the body but [name] and [email]:
    two objects that agree on both get the same reply and leave the same
    database. *)
Theorem post_users_reads_name_and_email fmt db f g :
  Js.getProp (Js.Obj f) "name" = Js.getProp (Js.Obj g) "name" →
  Js.getProp (Js.Obj f) "email" = Js.getProp (Js.Obj g) "email" →
  Server.serve fmt db (Server.POST_users (Js.Obj f))
  = Server.serve fmt db (Server.POST_users (Js.Obj g)).
Proof.
  intros Hname Hemail. rewrite !post_users_unfold.
  assert (∀ k, k ∈ (Server.createUserSchema fmt).*1 →
            Js.getProp (Js.Obj f) k = Js.getProp (Js.Obj g) k) as Hagree.
  { intros k Hk. simpl in Hk.
    apply elem_of_cons in Hk as [->|Hk]; [done|].
    apply elem_of_cons in Hk as [->|Hk]; [done|]. by apply elem_of_nil in Hk. }
  unfold Zod.parse. by rewrite (objectIssues_ext _ _ _ Hagree), (strip_ext _ _ _ Hagree).
Qed.

(** John Doe with and without an address. *)
Lemma post_users_reads_name_and_email_witness :
  Server.serve Samples.atSign emptyDb (Server.POST_users Samples.johnWithAddress)
  = Server.serve Samples.atSign emptyDb (Server.POST_users Samples.john).
Proof.
  apply (post_users_reads_name_and_email Samples.atSign emptyDb); reflexivity.
Defined.

(** X7: whenever [POST /users] answers 201, the body passed the schema of
    the route, the user in the reply has the name and the email of the
    body and the next id of the sequence, and the table is the old one
    with that user added under an id that was free. *)
Theorem post_users_created fmt db body reply db1 :
  wf db →
  Server.serve fmt db (Server.POST_users body) = (reply, db1) →
  statusCode reply = 201 →
  ∃ u, payload reply = User u ∧
       Js.getProp body "name" = Js.Str (User.name u) ∧
       Js.getProp body "email" = Js.Str (User.email u) ∧
       (3 ≤ Z.of_nat (String.length (User.name u)))%Z ∧
       fmt (User.email u) = true ∧
       User.id u = User_id_seq db ∧
       users db !! User.id u = None ∧
       users db1 = <[User.id u := u]> (users db) ∧
       posts db1 = posts db ∧
       ∀ i v, users db !! i = Some v → User.email v ≠ User.email u.
Proof.
  intros Hwf. rewrite post_users_unfold.
  destruct (Zod.parse _ body) as [errors|parsed] eqn:Hparse.
  { intros [= <- <-]. done. }
  destruct (createUserSchema_accepts _ _ _ Hparse)
    as (n & e & Hn & He & Hlen & Hfmt & -> & ->).
  unfold user_create.
  destruct (exhausted (User_id_seq db)).
  { intros [= <- <-]. done. }
  destruct (emailTaken e None (users db)) eqn:Htaken.
  { intros [= <- <-]. done. }
  case_bool_decide as Hpk.
  { intros [= <- <-]. done. }
  intros [= <- <-] _. eexists. split; [done|]. simpl.
  rewrite emailTaken_false in Htaken.
  repeat split; try done.
  - by apply eq_None_not_Some.
  - intros i v Hi Hv. by specialize (Htaken i v Hi Hv).
Qed.

Lemma post_users_created_witness :
  ∃ u, User Samples.johnDoe = User u ∧
       Js.getProp Samples.john "name" = Js.Str (User.name u) ∧
       Js.getProp Samples.john "email" = Js.Str (User.email u) ∧
       (3 ≤ Z.of_nat (String.length (User.name u)))%Z ∧
       Samples.atSign (User.email u) = true ∧
       User.id u = 1 ∧
       (∅ : gmap Z User.t) !! User.id u = None ∧
       users Samples.oneUser = <[User.id u := u]> ∅ ∧
       posts Samples.oneUser = ∅ ∧
       ∀ i v, (∅ : gmap Z User.t) !! i = Some v → User.email v ≠ User.email u.
Proof.
  apply (post_users_created Samples.atSign emptyDb Samples.john
           {| statusCode := 201; payload := User Samples.johnDoe |} Samples.oneUser).
  - apply empty_wf.
  - vm_compute. reflexivity.
  - reflexivity.
Defined.

(** X8: a body that passes the schema but whose email a stored user
    already has is answered 400 with the unique-constraint error of the
    store, and neither table changes. The insertion asks the sequence of
    the ids for a value before the constraint is checked, so the sequence
    must have one left. *)
Theorem post_users_duplicate_email fmt db body parsed i v :
  (User_id_seq db ≤ 2147483647)%Z →
  Zod.parse (Server.createUserSchema fmt) body = inr parsed →
  users db !! i = Some v →
  Js.getProp body "email" = Js.Str (User.email v) →
  (Server.serve fmt db (Server.POST_users body)).1
    = {| statusCode := 400;
         payload := Error (PrismaError (PrismaClientKnownRequestError P2002)) |} ∧
  users (Server.serve fmt db (Server.POST_users body)).2 = users db ∧
  posts (Server.serve fmt db (Server.POST_users body)).2 = posts db.
Proof.
  intros Hlast Hparse Hi Hemail. rewrite post_users_unfold, Hparse.
  destruct (createUserSchema_accepts _ _ _ Hparse)
    as (n & e & Hn & He & _ & _ & -> & ->).
  unfold user_create. rewrite (proj2 (exhausted_false _) Hlast).
  assert (emailTaken e None (users db) = true) as ->; [|done].
  apply bool_decide_eq_true. exists i, v. split; [done|]. split; [|done].
  rewrite He in Hemail. by injection Hemail.
Qed.

Lemma post_users_duplicate_email_witness :
  (Server.serve Samples.atSign Samples.oneUser (Server.POST_users Samples.john)).1
    = {| statusCode := 400;
         payload := Error (PrismaError (PrismaClientKnownRequestError P2002)) |} ∧
  users (Server.serve Samples.atSign Samples.oneUser (Server.POST_users Samples.john)).2
    = users Samples.oneUser ∧
  posts (Server.serve Samples.atSign Samples.oneUser (Server.POST_users Samples.john)).2
    = posts Samples.oneUser.
Proof.
  apply (post_users_duplicate_email Samples.atSign Samples.oneUser Samples.john
           Samples.john 1 Samples.johnDoe); [simpl; lia | vm_compute | |]; reflexivity.
Defined.

(** X9: [GET /users] answers 200 with the stored users, all of them and
    nothing else, as many as the table has rows, and leaves the database
    as it is. *)
Theorem get_users_lists_the_table fmt db :
  ∃ l, Server.serve fmt db Server.GET_users
         = ({| statusCode := 200; payload := Users l |}, db) ∧
       (∀ u, u ∈ l ↔ ∃ i, users db !! i = Some u) ∧
       length l = size (users db).
Proof.
  exists (map_to_list (users db)).*2. split; [done|]. split.
  - intros u. rewrite list_elem_of_fmap. split.
    + intros ([i u'] & -> & Hiu). exists i. by apply elem_of_map_to_list.
    + intros [i Hi]. exists (i, u). split; [done|]. by apply elem_of_map_to_list.
  - by rewrite length_fmap, length_map_to_list.
Qed.

(** X10: [PUT /users/:id] on a stored user of a well-formed database
    replaces the fields that the body gives, strings of any length and
    format, and keeps the others and the id; the reply is a 200 with the
    new record, reading the id back returns it, and the other users are as
    they were. The email must not be that of another user. *)
Theorem put_users_patches fmt db id i old fields n e :
  wf db →
  Js.parseInt id = Js.Int i → users db !! i = Some old →
  optionalString (Js.getProp (Js.Obj fields) "name") = Some n →
  optionalString (Js.getProp (Js.Obj fields) "email") = Some e →
  (∀ j v, users db !! j = Some v →
          User.email v = default (User.email old) e → j = i) →
  let u := {| User.id := User.id old; User.name := default (User.name old) n;
              User.email := default (User.email old) e |} in
  let db1 := with_users db (<[i := u]> (users db)) in
  Server.serve fmt db (Server.PUT_users_id id (Js.Obj fields))
    = ({| statusCode := 200; payload := User u |}, db1) ∧
  Server.serve fmt db1 (Server.GET_users_id id)
    = ({| statusCode := 200; payload := User u |}, db1) ∧
  ∀ j, j ≠ i → users db1 !! j = users db !! j.
Proof.
  intros Hwf Hid Hold Hn He Hfree u db1.
  pose proof (wf_user_int _ Hwf _ _ Hold) as Hi. split; [|split].
  - rewrite put_users_id_unfold, Hid, user_update_int, Hn, He, Hold by done.
    simpl.
    assert (emailTaken (default (User.email old) e) (Some i) (users db) = false) as ->.
    { apply emailTaken_false. intros j v Hj Hv. f_equal. by apply (Hfree j v). }
    done.
  - rewrite (get_users_id_int _ _ _ _ Hid Hi). subst db1. simpl.
    by rewrite lookup_insert_eq.
  - intros j Hj. subst db1. simpl. by rewrite lookup_insert_ne.
Qed.

(** John Doe is renamed to the empty name; no schema is in the way. *)
Lemma put_users_patches_witness :
  Server.serve Samples.atSign Samples.oneUser
    (Server.PUT_users_id "1" (Js.Obj {[ "name" := Js.Str "" ]}))
  = ({| statusCode := 200;
        payload := User {| User.id := 1; User.name := "";
                           User.email := "john@example.com" |} |},
     with_users Samples.oneUser
       {[ 1 := {| User.id := 1; User.name := ""; User.email := "john@example.com" |} ]}).
Proof.
  destruct (put_users_patches Samples.atSign Samples.oneUser "1" 1 Samples.johnDoe
              {[ "name" := Js.Str "" ]} (Some "") None) as (Hput & _);
    [| reflexivity| reflexivity | reflexivity | reflexivity | |].
  - change Samples.oneUser with
      (Server.serve Samples.atSign emptyDb (Server.POST_users Samples.john)).2.
    apply serve_wf, empty_wf.
  - intros j v Hj _. simpl in Hj. apply lookup_singleton_Some in Hj as [<- _]. done.
  - rewrite Hput. reflexivity.
Defined.

(** X11: on a well-formed database, [PUT /users/:id] with the email of
    another user is answered 500 with the unique-constraint error, and the
    database is unchanged. *)
Theorem put_users_email_taken fmt db id i old j v fields n :
  wf db →
  Js.parseInt id = Js.Int i → users db !! i = Some old →
  users db !! j = Some v → j ≠ i →
  optionalString (Js.getProp (Js.Obj fields) "name") = Some n →
  Js.getProp (Js.Obj fields) "email" = Js.Str (User.email v) →
  Server.serve fmt db (Server.PUT_users_id id (Js.Obj fields))
  = ({| statusCode := 500;
        payload := Error (PrismaError (PrismaClientKnownRequestError P2002)) |}, db).
Proof.
  intros Hwf Hid Hold Hj Hne Hn He.
  rewrite put_users_id_unfold, Hid, user_update_int, Hn, He, Hold
    by (by eapply wf_user_int).
  simpl.
  assert (emailTaken (User.email v) (Some i) (users db) = true) as ->; [|done].
  apply bool_decide_eq_true. exists j, v. split; [done|]. split; [done|congruence].
Qed.

(** Jane Roe asks for John Doe's email. *)
Lemma put_users_email_taken_witness :
  Server.serve Samples.atSign Samples2.twoUsers
    (Server.PUT_users_id "2" (Js.Obj {[ "email" := Js.Str "john@example.com" ]}))
  = ({| statusCode := 500;
        payload := Error (PrismaError (PrismaClientKnownRequestError P2002)) |},
     Samples2.twoUsers).
Proof.
  apply (put_users_email_taken Samples.atSign Samples2.twoUsers "2" 2 Samples2.janeRoe
           1 Samples.johnDoe {[ "email" := Js.Str "john@example.com" ]} None);
    try reflexivity; [|done].
  change Samples2.twoUsers with
    (Server.serve Samples.atSign
       (Server.serve Samples.atSign emptyDb (Server.POST_users Samples.john)).2
       (Server.POST_users Samples2.jane)).2.
  apply serve_wf, serve_wf, empty_wf.
Defined.

(** X12: a [DELETE /users/:id] that is answered 204 removes that user and
    nothing else: the posts are untouched and every other id is read as
    before. *)
Theorem delete_users_removes_one fmt db id i :
  Js.parseInt id = Js.Int i →
  statusCode (Server.serve fmt db (Server.DELETE_users_id id)).1 = 204 →
  users (Server.serve fmt db (Server.DELETE_users_id id)).2 = delete i (users db) ∧
  posts (Server.serve fmt db (Server.DELETE_users_id id)).2 = posts db ∧
  ∀ id' j, Js.parseInt id' = Js.Int j → j ≠ i →
    (Server.serve fmt (Server.serve fmt db (Server.DELETE_users_id id)).2
       (Server.GET_users_id id')).1
    = (Server.serve fmt db (Server.GET_users_id id')).1.
Proof.
  intros Hid. rewrite delete_users_id_unfold, Hid. unfold user_delete.
  destruct (intValue (Js.Int i)) as [i'|] eqn:Hi'; try done.
  apply intValue_Int_Some in Hi' as ->.
  destruct (isInt32 i); try done.
  destruct (users db !! i) as [u|]; try done.
  destruct (hasPosts i (posts db)); try done.
  intros _. split; [done|]. split; [done|].
  intros id' j Hid' Hne. rewrite !get_users_id_unfold, Hid'.
  destruct (intValue (Js.Int j)) as [j'|] eqn:Hj'; [|done].
  apply intValue_Int_Some in Hj' as ->.
  destruct (isInt32 j); [|done]. simpl.
  rewrite lookup_delete_ne by done. by destruct (users db !! j).
Qed.

(** Jane Roe leaves; John Doe is still there. *)
Lemma delete_users_removes_one_witness :
  users (Server.serve Samples.atSign Samples2.twoUsers (Server.DELETE_users_id "2")).2
    = delete 2 (users Samples2.twoUsers) ∧
  (Server.serve Samples.atSign
     (Server.serve Samples.atSign Samples2.twoUsers (Server.DELETE_users_id "2")).2
     (Server.GET_users_id "1")).1
  = {| statusCode := 200; payload := User Samples.johnDoe |}.
Proof.
  destruct (delete_users_removes_one Samples.atSign Samples2.twoUsers "2" 2)
    as (Husers & _ & Hothers); [reflexivity|reflexivity|].
  split; [exact Husers|]. by rewrite (Hothers "1" 1).
Defined.



Ltac unfold_routes :=
  unfold Server.serve, run, Server.route, Server.post_users, Server.get_users,
    Server.get_users_id, Server.put_users_id, Server.delete_users_id,
    Server.post_posts, Server.get_posts, Server.get_posts_id,
    Server.put_posts_id, Server.delete_posts_id, try_catch, parse, destructure,
    send, status_send, throw, mbind, M_bind, mret, M_ret, await.

Ltac unfold_queries :=
  unfold user_create, user_findMany, user_findUnique, user_update, user_delete,
    post_create, post_findMany, post_findUnique, post_update, post_delete,
    known, unknown, invalid.

(** X14: a request that is answered with an error changes neither table,
    and a request to a route that only reads leaves the whole database as
    it is, whatever it is answered. *)
Theorem errors_and_reads_change_nothing fmt db req :
  ((400 ≤ statusCode (Server.serve fmt db req).1)%Z →
   users (Server.serve fmt db req).2 = users db ∧
   posts (Server.serve fmt db req).2 = posts db) ∧
  (Keys.readOnly req = true → (Server.serve fmt db req).2 = db).
Proof.
  split.
  - destruct req; unfold_routes; unfold_queries;
      repeat case_match; simplify_eq/=; try done; lia.
  - destruct req; try done; intros _; unfold_routes; unfold_queries;
      repeat case_match; by simplify_eq/=.
Qed.

(** A second registration of John Doe, and a read of a missing user. *)
Lemma errors_and_reads_change_nothing_witness :
  users (Server.serve Samples.atSign Samples.oneUser (Server.POST_users Samples.john)).2
    = users Samples.oneUser ∧
  (Server.serve Samples.atSign Samples.oneUser (Server.GET_users_id "7")).2
    = Samples.oneUser.
Proof.
  split.
  - apply (proj1 (errors_and_reads_change_nothing Samples.atSign Samples.oneUser
                    (Server.POST_users Samples.john))).
    vm_compute. discriminate.
  - apply (proj2 (errors_and_reads_change_nothing Samples.atSign Samples.oneUser
                    (Server.GET_users_id "7"))). reflexivity.
Defined.

(** X15: the server answers with no status code other than 200, 201, 204,
    400, 404 and 500, and only the two routes with a [catch] answer 400. *)
Theorem status_codes_of_the_server fmt db req :
  statusCode (Server.serve fmt db req).1 ∈ [200; 201; 204; 400; 404; 500] ∧
  (statusCode (Server.serve fmt db req).1 = 400 →
   (∃ body, req = Server.POST_users body) ∨ (∃ now body, req = Server.POST_posts now body)).
Proof.
  split.
  - destruct req; unfold_routes; repeat case_match; simplify_eq/=;
      repeat first [ by left | right ].
  - destruct req; eauto; unfold_routes; repeat case_match; simplify_eq/=; done.
Qed.

(** ** Ids and sequences *)

Module KeysFacts.
Import Keys.

Ltac keys_lookup :=
  intros ? ?; rewrite ?lookup_insert, ?lookup_delete;
  repeat case_decide; intros; simplify_eq/=.

Lemma query_keeps_wfKeys_user_create name email db :
  wfKeys db → wfKeys (user_create name email db).2.
Proof.
  intros [Hu Hp Hus Hps]. unfold user_create, known, unknown, invalid.
  destruct name as [| | | |n| |]; try done. destruct email as [| | | |e| |]; try done.
  destruct (exhausted (User_id_seq db)) eqn:Hlast; [done|].
  apply exhausted_false in Hlast.
  repeat case_match; simplify_eq/=; split; simpl; try done; try lia.
  keys_lookup; [lia|eauto].
Qed.

Lemma query_keeps_wfKeys_user_update id name email db :
  wfKeys db → wfKeys (user_update id name email db).2.
Proof.
  intros [Hu Hp Hus Hps]. unfold user_update, known, invalid.
  repeat case_match; simplify_eq/=; split; simpl; try done.
  keys_lookup; eauto.
Qed.

Lemma query_keeps_wfKeys_user_delete id db :
  wfKeys db → wfKeys (user_delete id db).2.
Proof.
  intros [Hu Hp Hus Hps]. unfold user_delete, known, invalid.
  repeat case_match; simplify_eq/=; split; simpl; try done.
  keys_lookup; eauto.
Qed.

Lemma query_keeps_wfKeys_post_create now title content userId db :
  wfKeys db → wfKeys (post_create now title content userId db).2.
Proof.
  intros [Hu Hp Hus Hps]. unfold post_create, known, unknown, invalid.
  destruct title as [| | | |t| |]; try done.
  destruct content as [| | | |c| |]; try done.
  destruct (optionalInt userId) as [[uid|]|]; try done.
  destruct (isInt32 uid); try done.
  destruct (exhausted (Post_id_seq db)) eqn:Hlast; [done|].
  apply exhausted_false in Hlast.
  assert (wfKeys (next_Post_id db)) as Hnext.
  { split; simpl; try done; try lia.
    intros i p Hi. apply Hp in Hi. lia. }
  case_bool_decide; [|done]. case_bool_decide; [done|].
  split; simpl; try done; try lia.
  keys_lookup; [lia|].
  match goal with H : posts _ !! _ = Some _ |- _ => apply Hp in H end. lia.
Qed.

Lemma query_keeps_wfKeys_post_update id title content userId db :
  wfKeys db → wfKeys (post_update id title content userId db).2.
Proof.
  intros [Hu Hp Hus Hps]. unfold post_update, known, invalid.
  repeat case_match; simplify_eq/=; split; simpl; try done.
  keys_lookup; eauto.
Qed.

Lemma query_keeps_wfKeys_post_delete id db :
  wfKeys db → wfKeys (post_delete id db).2.
Proof.
  intros [Hu Hp Hus Hps]. unfold post_delete, known, invalid.
  repeat case_match; simplify_eq/=; split; simpl; try done.
  keys_lookup; eauto.
Qed.

Lemma route_keeps_wfKeys fmt req : keeps wfKeys (Server.route fmt req).
Proof.
  destruct req; simpl;
    unfold Server.post_users, Server.get_users, Server.get_users_id,
      Server.put_users_id, Server.delete_users_id, Server.post_posts,
      Server.get_posts, Server.get_posts_id, Server.put_posts_id,
      Server.delete_posts_id, send;
    repeat keeps_step;
    auto using query_keeps_wfKeys_user_create, query_keeps_wfKeys_user_update,
      query_keeps_wfKeys_user_delete, query_keeps_wfKeys_post_create,
      query_keeps_wfKeys_post_update, query_keeps_wfKeys_post_delete.
  all: by rewrite ?user_findUnique_same, ?post_findUnique_same.
Qed.

Lemma reachable_wfKeys fmt db : Server.reachable fmt db → wfKeys db.
Proof.
  induction 1 as [|db req _ IH].
  - split; simpl; try done; intros *; by rewrite lookup_empty.
  - unfold Server.serve. by apply (keeps_run wfKeys); [apply route_keeps_wfKeys|].
Qed.

(** The sequences never go back. *)
Lemma route_keeps_sequences (n m : Z) fmt req :
  keeps (λ db, (n ≤ User_id_seq db)%Z ∧ (m ≤ Post_id_seq db)%Z) (Server.route fmt req).
Proof.
  destruct req; simpl;
    unfold Server.post_users, Server.get_users, Server.get_users_id,
      Server.put_users_id, Server.delete_users_id, Server.post_posts,
      Server.get_posts, Server.get_posts_id, Server.put_posts_id,
      Server.delete_posts_id, send;
    repeat keeps_step.
  all: unfold user_create, user_findMany, user_findUnique, user_update, user_delete,
    post_create, post_findMany, post_findUnique, post_update, post_delete,
    known, unknown, invalid; repeat case_match; simplify_eq/=; try done; lia.
Qed.

Lemma serveAll_sequences fmt reqs db :
  (User_id_seq db ≤ User_id_seq (Server.serveAll fmt db reqs))%Z ∧
  (Post_id_seq db ≤ Post_id_seq (Server.serveAll fmt db reqs))%Z.
Proof.
  revert db. induction reqs as [|req reqs IH]; intros db; [done|].
  unfold Server.serveAll. simpl. fold (Server.serveAll fmt (Server.serve fmt db req).2 reqs).
  destruct (IH (Server.serve fmt db req).2) as [Hu Hp].
  assert ((User_id_seq db ≤ User_id_seq (Server.serve fmt db req).2)%Z ∧
          (Post_id_seq db ≤ Post_id_seq (Server.serve fmt db req).2)%Z) as [Hu' Hp'].
  { unfold Server.serve.
    apply (keeps_run (λ d, (User_id_seq db ≤ User_id_seq d)%Z ∧
                           (Post_id_seq db ≤ Post_id_seq d)%Z));
      [apply route_keeps_sequences|done]. }
  lia.
Qed.

(** A user that [POST /users] sends has the id that the sequence was at. *)
Lemma post_users_201_id fmt db body u db1 :
  Server.serve fmt db (Server.POST_users body)
    = ({| statusCode := 201; payload := User u |}, db1) →
  User.id u = User_id_seq db.
Proof.
  rewrite post_users_unfold. unfold user_create, known, unknown, invalid.
  repeat case_match; by intros; simplify_eq/=.
Qed.

End KeysFacts.
Import KeysFacts.

(** X16: an id is never given twice. Whatever requests are served in
    between, deletions included, a user that is created later gets an id
    above the id of every user that was ever stored before. *)
Theorem ids_are_never_reused fmt db reqs body u i v :
  wf db →
  users db !! i = Some v →
  (Server.serve fmt (Server.serveAll fmt db reqs) (Server.POST_users body)).1
    = {| statusCode := 201; payload := User u |} →
  i < User.id u.
Proof.
  intros Hwf Hi Hcreated.
  destruct (Server.serve fmt (Server.serveAll fmt db reqs) (Server.POST_users body))
    as [reply db1] eqn:Hserve.
  simpl in Hcreated. subst reply.
  pose proof (post_users_201_id fmt _ body _ db1 Hserve) as Hid. simpl in Hid.
  pose proof (wf_fresh _ Hwf i v Hi).
  pose proof (proj1 (serveAll_sequences fmt reqs db)). lia.
Qed.

(** John Doe registers, is deleted, and Jane Roe registers: she is user 2. *)
Lemma ids_are_never_reused_witness : 1 < User.id Samples2.janeRoe.
Proof.
  apply (ids_are_never_reused Samples.atSign Samples.oneUser
           [Server.DELETE_users_id "1"] Samples2.jane Samples2.janeRoe 1 Samples.johnDoe).
  - change Samples.oneUser with
      (Server.serve Samples.atSign emptyDb (Server.POST_users Samples.john)).2.
    apply serve_wf, empty_wf.
  - reflexivity.
  - vm_compute. reflexivity.
Defined.

(** X17: in every database that the server can reach, every post belongs
    to a stored user, and [GET /posts] answers 200 with the stored posts,
    every one of them and each once, every one next to its user, never
    next to [null]. *)
Theorem posts_have_their_user fmt db :
  Server.reachable fmt db →
  (∀ i p, posts db !! i = Some p →
          ∃ u, users db !! Post.userId p = Some u ∧ User.id u = Post.userId p) ∧
  ∃ l, Server.serve fmt db Server.GET_posts
         = ({| statusCode := 200; payload := PostsWithUser l |}, db) ∧
       length l = size (posts db) ∧ NoDup l ∧
       (∀ p, (∃ i, posts db !! i = Some p) ↔ ∃ o, (p, o) ∈ l) ∧
       ∀ p o, (p, o) ∈ l →
              ∃ u, o = Some u ∧ users db !! Post.userId p = Some u ∧
                   User.id u = Post.userId p.
Proof.
  intros Hreach. pose proof (reachable_wf _ _ Hreach) as Hwf.
  pose proof (reachable_wfKeys _ _ Hreach) as Hkeys.
  assert (∀ i p, posts db !! i = Some p →
            ∃ u, users db !! Post.userId p = Some u ∧ User.id u = Post.userId p) as Hfk.
  { intros i p Hp. destruct (wf_references _ Hwf i p Hp) as [u Hu].
    exists u. split; [done|]. by apply (wf_key _ Hwf). }
  split; [exact Hfk|].
  exists (withUser db <$> (map_to_list (posts db)).*2). split; [done|]. split; [|split; [|split]].
  - by rewrite !length_fmap, length_map_to_list.
  - apply NoDup_fmap_2_strong.
    { intros p q _ _ Hpq. by injection Hpq. }
    apply NoDup_fmap_2_strong; [|apply NoDup_map_to_list].
    intros [i p] [j q] Hi%elem_of_map_to_list Hj%elem_of_map_to_list Hpq.
    simpl in Hpq. subst q.
    apply (Keys.keys_posts _ Hkeys) in Hi as [Hi _].
    apply (Keys.keys_posts _ Hkeys) in Hj as [Hj _]. congruence.
  - intros p. split.
    + intros [i Hi]. exists (users db !! Post.userId p).
      apply list_elem_of_fmap. exists p. split; [done|].
      apply list_elem_of_fmap. exists (i, p). split; [done|]. by apply elem_of_map_to_list.
    + intros [o Hin]. apply list_elem_of_fmap in Hin as (p' & [= <- _] & Hp').
      apply list_elem_of_fmap in Hp' as ([i p''] & -> & Hip).
      exists i. by apply elem_of_map_to_list.
  - intros p o. rewrite list_elem_of_fmap. intros (p' & [= -> ->] & Hp').
    apply list_elem_of_fmap in Hp' as ([i p] & -> & Hip).
    apply elem_of_map_to_list in Hip. simpl.
    destruct (Hfk i p Hip) as (u & Hu & Hid). exists u. eauto.
Qed.

(** ** The post routes *)

(** [GET /posts/:id]: the post with its user, a 404, or a 500 when the
    parameter is not an integer of 32 bits. *)
Lemma get_posts_id_unfold fmt db id :
  Server.serve fmt db (Server.GET_posts_id id) =
  match intValue (Js.parseInt id) with
  | Some i =>
      if isInt32 i then
        match posts db !! i with
        | Some post =>
            ({| statusCode := 200; payload := PostWithUser (withUser db post) |}, db)
        | None => ({| statusCode := 404; payload := Message "Post not found" |}, db)
        end
      else ({| statusCode := 500;
               payload := Error (PrismaError (PrismaClientKnownRequestError P2020)) |}, db)
  | None => ({| statusCode := 500;
                payload := Error (PrismaError PrismaClientValidationError) |}, db)
  end.
Proof.
  unfold Server.serve, run, Server.route, Server.get_posts_id,
    mbind, M_bind, await, post_findUnique.
  destruct (intValue (Js.parseInt id)) as [i|]; try done.
  destruct (isInt32 i); try done.
  by destruct (posts db !! i).
Qed.

Lemma get_posts_id_int fmt db id i :
  Js.parseInt id = Js.Int i → isInt32 i = true →
  Server.serve fmt db (Server.GET_posts_id id) =
  match posts db !! i with
  | Some post =>
      ({| statusCode := 200; payload := PostWithUser (withUser db post) |}, db)
  | None => ({| statusCode := 404; payload := Message "Post not found" |}, db)
  end.
Proof. intros Hid Hi. by rewrite get_posts_id_unfold, Hid, intValue_Int, Hi. Qed.

(** [PUT /posts/:id]: every failure is a 500. *)
Lemma put_posts_id_unfold fmt db id body :
  Server.serve fmt db (Server.PUT_posts_id id body) =
  match body with
  | Js.Undefined | Js.Null =>
      ({| statusCode := 500; payload := Error TypeError |}, db)
  | _ =>
      match post_update (Js.parseInt id) (Js.getProp body "title")
              (Js.getProp body "content") (Js.getProp body "userId") db with
      | (inr post, db') => ({| statusCode := 200; payload := Post post |}, db')
      | (inl e, db') => ({| statusCode := 500; payload := Error (PrismaError e) |}, db')
      end
  end.
Proof.
  unfold Server.serve, run, Server.route, Server.put_posts_id, mbind, M_bind, await.
  destruct body; simpl; try done;
    by destruct (post_update _ _ _ _ db) as [[e|u] db'].
Qed.

(** [DELETE /posts/:id]: every failure is a 500. *)
Lemma delete_posts_id_unfold fmt db id :
  Server.serve fmt db (Server.DELETE_posts_id id) =
  match post_delete (Js.parseInt id) db with
  | (inr _, db') => ({| statusCode := 204; payload := Nothing |}, db')
  | (inl e, db') => ({| statusCode := 500; payload := Error (PrismaError e) |}, db')
  end.
Proof.
  unfold Server.serve, run, Server.route, Server.delete_posts_id, mbind, M_bind, await.
  by destruct (post_delete _ db) as [[e|u] db'].
Qed.

(** X18: as long as the sequence of the post ids has a value left, a body
    that passes the post schema and whose [userId] is the id of a stored
    user is stored under the next id of the sequence with the title, the
    content and the user of the body and the time of the insertion; the
    users are untouched; and reading that id back returns the post next to
    its user. *)
Theorem post_then_getById fmt db now body parsed uid owner :
  Keys.wfKeys db →
  (Post_id_seq db ≤ 2147483647)%Z →
  Zod.parse Server.createPostSchema body = inr parsed →
  Js.getProp body "userId" = Js.Num (Js.Int uid) →
  users db !! uid = Some owner →
  ∃ p db1,
    Server.serve fmt db (Server.POST_posts now body)
      = ({| statusCode := 201; payload := Post p |}, db1) ∧
    Post.id p = Post_id_seq db ∧
    Js.Str (Post.title p) = Js.getProp body "title" ∧
    Js.Str (Post.content p) = Js.getProp body "content" ∧
    Post.createdAt p = now ∧ Post.userId p = uid ∧
    users db1 = users db ∧
    Server.serve fmt db1 (Server.GET_posts_id (Numeral.numeral (Post.id p)))
      = ({| statusCode := 200; payload := PostWithUser (p, Some owner) |}, db1).
Proof.
  intros Hkeys Hlast Hparse Huid Howner. rewrite post_posts_unfold, Hparse.
  destruct (createPostSchema_accepts _ _ Hparse)
    as (t & c & uid' & Ht & Hc & Hu & _ & _ & _ & -> & -> & ->).
  rewrite Hu in Huid. injection Huid as ->.
  pose proof (Keys.keys_users _ Hkeys _ _ Howner) as Hrange.
  pose proof (Keys.keys_post_seq _ Hkeys) as Hseq.
  assert (isInt32 uid = true) as Huid32 by (apply isInt32_spec; lia).
  unfold post_create, optionalInt. rewrite intValue_Int by done. simpl.
  rewrite Huid32, (proj2 (exhausted_false _) Hlast).
  rewrite bool_decide_eq_true_2 by eauto.
  rewrite bool_decide_eq_false_2.
  2:{ intros [q Hq]. apply (Keys.keys_posts _ Hkeys) in Hq. lia. }
  eexists _, _. split; [done|]. simpl. rewrite Ht, Hc.
  repeat split.
  rewrite (get_posts_id_int _ _ _ (Post_id_seq db));
    [|apply parseInt_numeral; lia | apply isInt32_spec; lia].
  simpl. rewrite lookup_insert_eq. unfold withUser. simpl. by rewrite Howner.
Qed.

(** John Doe's first post. *)
Lemma post_then_getById_witness :
  ∃ p db1,
    Server.serve Samples.atSign Samples.oneUser (Server.POST_posts 0 Samples.firstPost)
      = ({| statusCode := 201; payload := Post p |}, db1) ∧
    Post.id p = 1 ∧
    Js.Str (Post.title p) = Js.Str "First Post" ∧
    Js.Str (Post.content p) = Js.Str "This is my first post!" ∧
    Post.createdAt p = 0 ∧ Post.userId p = 1 ∧
    users db1 = users Samples.oneUser ∧
    Server.serve Samples.atSign db1 (Server.GET_posts_id (Numeral.numeral (Post.id p)))
      = ({| statusCode := 200; payload := PostWithUser (p, Some Samples.johnDoe) |}, db1).
Proof.
  apply (post_then_getById Samples.atSign Samples.oneUser 0 Samples.firstPost
           (Js.Obj (Zod.strip Server.createPostSchema Samples.firstPost)) 1 Samples.johnDoe).
  - apply (reachable_wfKeys Samples.atSign).
    change Samples.oneUser with
      (Server.serve Samples.atSign emptyDb (Server.POST_users Samples.john)).2.
    apply Server.reachable_serve, Server.reachable_empty.
  - simpl. lia.
  - vm_compute. reflexivity.
  - reflexivity.
  - reflexivity.
Defined.

(** X19: after a [DELETE /posts/:id] that was answered 204, reading the
    same id is answered 404, and the users are untouched. *)
Theorem delete_post_then_getById fmt db id :
  statusCode (Server.serve fmt db (Server.DELETE_posts_id id)).1 = 204 →
  Server.serve fmt (Server.serve fmt db (Server.DELETE_posts_id id)).2
    (Server.GET_posts_id id)
  = ({| statusCode := 404; payload := Message "Post not found" |},
     (Server.serve fmt db (Server.DELETE_posts_id id)).2) ∧
  users (Server.serve fmt db (Server.DELETE_posts_id id)).2 = users db.
Proof.
  rewrite delete_posts_id_unfold. unfold post_delete.
  destruct (intValue (Js.parseInt id)) as [i|] eqn:Hid; try done.
  destruct (isInt32 i) eqn:Hi; try done.
  destruct (posts db !! i) as [p|]; try done.
  intros _. split; [|done].
  rewrite get_posts_id_unfold, Hid, Hi. simpl. by rewrite lookup_delete_eq.
Qed.

Lemma delete_post_then_getById_witness :
  (Server.serve Samples.atSign
     (Server.serve Samples.atSign Samples2.onePost (Server.DELETE_posts_id "1")).2
     (Server.GET_posts_id "1")).1
  = {| statusCode := 404; payload := Message "Post not found" |}.
Proof.
  destruct (delete_post_then_getById Samples.atSign Samples2.onePost "1") as [Hget _];
    [reflexivity|]. by rewrite Hget.
Defined.

(** X20: [PUT /posts/:id] with the empty patch on a stored post is answered
    200 with the post as it was, and the database is unchanged. *)
Theorem update_post_empty_patch fmt db id i p :
  wf db → Js.parseInt id = Js.Int i → posts db !! i = Some p →
  Server.serve fmt db (Server.PUT_posts_id id (Js.Obj ∅))
  = ({| statusCode := 200; payload := Post p |}, db).
Proof.
  intros Hwf Hid Hp.
  rewrite put_posts_id_unfold, Hid, post_update_int by (by eapply wf_post_int).
  unfold Js.getProp. rewrite !lookup_empty. simpl. rewrite Hp. simpl.
  rewrite bool_decide_eq_true_2 by (by apply (wf_references _ Hwf i)).
  destruct p. simpl. rewrite insert_id by done. by destruct db.
Qed.

Lemma update_post_empty_patch_witness :
  Server.serve Samples.atSign Samples2.onePost (Server.PUT_posts_id "1" (Js.Obj ∅))
  = ({| statusCode := 200; payload := Post Samples2.thePost |}, Samples2.onePost).
Proof.
  apply (update_post_empty_patch Samples.atSign Samples2.onePost "1" 1 Samples2.thePost);
    try reflexivity.
  apply (reachable_wf Samples.atSign).
  change Samples2.onePost with
    (Server.serve Samples.atSign
       (Server.serve Samples.atSign emptyDb (Server.POST_users Samples.john)).2
       (Server.POST_posts 0 Samples.firstPost)).2.
  apply Server.reachable_serve, Server.reachable_serve, Server.reachable_empty.
Defined.

(** X21: a parameter that is read as an integer of 32 bits under which no
    post is stored: [GET] answers 404, and [PUT] and [DELETE] answer 500
    and leave the database as it is, [DELETE] with the error of the ORM
    for a record that is not there. A parameter that is read as an integer
    beyond the 32 bits of the column resolves to no post either, and there
    all three answer 500 and leave the database as it is. *)
Theorem unknown_post_id fmt db id i body :
  Js.parseInt id = Js.Int i →
  ((-2147483648 ≤ i ≤ 2147483647)%Z → posts db !! i = None →
   Server.serve fmt db (Server.GET_posts_id id)
     = ({| statusCode := 404; payload := Message "Post not found" |}, db) ∧
   statusCode (Server.serve fmt db (Server.PUT_posts_id id body)).1 = 500 ∧
   (Server.serve fmt db (Server.PUT_posts_id id body)).2 = db ∧
   Server.serve fmt db (Server.DELETE_posts_id id)
     = ({| statusCode := 500;
           payload := Error (PrismaError (PrismaClientKnownRequestError P2025)) |}, db)) ∧
  ((i < -2147483648 ∨ 2147483647 < i)%Z →
   statusCode (Server.serve fmt db (Server.GET_posts_id id)).1 = 500 ∧
   (Server.serve fmt db (Server.GET_posts_id id)).2 = db ∧
   statusCode (Server.serve fmt db (Server.PUT_posts_id id body)).1 = 500 ∧
   (Server.serve fmt db (Server.PUT_posts_id id body)).2 = db ∧
   statusCode (Server.serve fmt db (Server.DELETE_posts_id id)).1 = 500 ∧
   (Server.serve fmt db (Server.DELETE_posts_id id)).2 = db).
Proof.
  intros Hid. split.
  - intros Hi%isInt32_spec Hnone. split; [|split; [|split]].
    + by rewrite (get_posts_id_int _ _ _ _ Hid Hi), Hnone.
    + rewrite put_posts_id_unfold, Hid, post_update_int, Hnone by done.
      unfold known, invalid. destruct body; try done; repeat case_match; by simplify_eq/=.
    + rewrite put_posts_id_unfold, Hid, post_update_int, Hnone by done.
      unfold known, invalid. destruct body; try done; repeat case_match; by simplify_eq/=.
    + by rewrite delete_posts_id_unfold, Hid, post_delete_int, Hnone.
  - intros Hi%isInt32_false. apply noInt32_Int in Hi. rewrite <-Hid in Hi.
    destruct (post_findUnique_noInt32 _ db Hi) as [e1 H1].
    destruct (post_update_noInt32 _ (Js.getProp body "title") (Js.getProp body "content")
                (Js.getProp body "userId") db Hi) as [e2 H2].
    destruct (post_delete_noInt32 _ db Hi) as [e3 H3].
    rewrite put_posts_id_unfold, delete_posts_id_unfold, H2, H3.
    unfold Server.serve, run, Server.route, Server.get_posts_id, mbind, M_bind, await.
    rewrite H1. by destruct body.
Qed.

(** Post 1 before anyone has posted, and post 2147483648. *)
Lemma unknown_post_id_witness :
  Server.serve Samples.atSign Samples.oneUser (Server.DELETE_posts_id "1")
    = ({| statusCode := 500;
          payload := Error (PrismaError (PrismaClientKnownRequestError P2025)) |},
       Samples.oneUser) ∧
  statusCode
    (Server.serve Samples.atSign Samples.oneUser (Server.GET_posts_id "2147483648")).1
  = 500.
Proof.
  split.
  - refine (proj2 (proj2 (proj2 (proj1
        (unknown_post_id Samples.atSign Samples.oneUser "1" 1 Js.Undefined eq_refl) _ _))));
      [lia | reflexivity].
  - refine (proj1 (proj2
        (unknown_post_id Samples.atSign Samples.oneUser "2147483648" 2147483648
           Js.Undefined eq_refl) _)). lia.
Defined.

(** X22: on a well-formed database, [PUT /posts/:id] cannot hand a stored
    post to a user who is not stored: the answer is a 500 and the database
    is unchanged. The error is the foreign-key error of the store when the
    [userId] fits the 32 bits of the column, and the out-of-range error
    when it is beyond them and fits 64 bits. A [userId] with a fraction is
    read without the fraction: under the same conditions on the number
    that is left, the answer is the same. *)
Theorem update_post_unknown_user fmt db id i p fields t c n uid :
  wf db →
  Js.parseInt id = Js.Int i → posts db !! i = Some p →
  optionalString (Js.getProp (Js.Obj fields) "title") = Some t →
  optionalString (Js.getProp (Js.Obj fields) "content") = Some c →
  Js.getProp (Js.Obj fields) "userId" = Js.Num n →
  intValue n = Some uid →
  users db !! uid = None →
  Server.serve fmt db (Server.PUT_posts_id id (Js.Obj fields))
  = ({| statusCode := 500;
        payload := Error (PrismaError (PrismaClientKnownRequestError
                     (if bool_decide (-2147483648 ≤ uid ≤ 2147483647)%Z
                      then P2003 else P2020))) |}, db).
Proof.
  intros Hwf Hid Hp Ht Hc Hu Huid Hnone.
  rewrite put_posts_id_unfold, Hid, post_update_int by (by eapply wf_post_int).
  rewrite Ht, Hc, Hu. unfold optionalInt. rewrite Huid. simpl.
  unfold isInt32. case_bool_decide; [|done].
  rewrite Hp. simpl.
  rewrite bool_decide_eq_false_2; [done|]. rewrite Hnone. by intros [? ?].
Qed.

(** John Doe's post cannot go to user 2, who is not stored, nor to user
    2147483648, nor to user 2.5. *)
Lemma update_post_unknown_user_witness :
  Server.serve Samples.atSign Samples2.onePost
    (Server.PUT_posts_id "1" (Js.Obj {[ "userId" := Js.Num (Js.Int 2) ]}))
    = ({| statusCode := 500;
          payload := Error (PrismaError (PrismaClientKnownRequestError P2003)) |},
       Samples2.onePost) ∧
  Server.serve Samples.atSign Samples2.onePost
    (Server.PUT_posts_id "1" (Js.Obj {[ "userId" := Js.Num (Js.Int 2147483648) ]}))
    = ({| statusCode := 500;
          payload := Error (PrismaError (PrismaClientKnownRequestError P2020)) |},
       Samples2.onePost) ∧
  Server.serve Samples.atSign Samples2.onePost
    (Server.PUT_posts_id "1" (Js.Obj {[ "userId" := Js.Num (Js.Frac 2) ]}))
    = ({| statusCode := 500;
          payload := Error (PrismaError (PrismaClientKnownRequestError P2003)) |},
       Samples2.onePost).
Proof.
  assert (wf Samples2.onePost) as Hwf.
  { change Samples2.onePost with
      (Server.serve Samples.atSign
         (Server.serve Samples.atSign emptyDb (Server.POST_users Samples.john)).2
         (Server.POST_posts 0 Samples.firstPost)).2.
    apply serve_wf, serve_wf, empty_wf. }
  split; [|split].
  - apply (update_post_unknown_user Samples.atSign Samples2.onePost "1" 1 Samples2.thePost
             {[ "userId" := Js.Num (Js.Int 2) ]} None None (Js.Int 2) 2 Hwf); reflexivity.
  - apply (update_post_unknown_user Samples.atSign Samples2.onePost "1" 1 Samples2.thePost
             {[ "userId" := Js.Num (Js.Int 2147483648) ]} None None
             (Js.Int 2147483648) 2147483648 Hwf); reflexivity.
  - apply (update_post_unknown_user Samples.atSign Samples2.onePost "1" 1 Samples2.thePost
             {[ "userId" := Js.Num (Js.Frac 2) ]} None None (Js.Frac 2) 2 Hwf); reflexivity.
Defined.



(** John Doe's post belongs to John Doe. *)
Lemma posts_have_their_user_witness :
  ∃ u, users Samples2.onePost !! Post.userId Samples2.thePost = Some u ∧
       User.id u = Post.userId Samples2.thePost.
Proof.
  refine (proj1 (posts_have_their_user Samples.atSign Samples2.onePost _)
            1 Samples2.thePost eq_refl).
  change Samples2.onePost with
    (Server.serve Samples.atSign
       (Server.serve Samples.atSign emptyDb (Server.POST_users Samples.john)).2
       (Server.POST_posts 0 Samples.firstPost)).2.
  apply Server.reachable_serve, Server.reachable_serve, Server.reachable_empty.
Defined.

(** ** The user routes of the second listing *)

Lemma postsOf_spec db i p :
  p ∈ Include.postsOf db i ↔ (∃ j, posts db !! j = Some p) ∧ Post.userId p = i.
Proof.
  unfold Include.postsOf. rewrite list_elem_of_filter, list_elem_of_fmap. split.
  - intros [Howner ([j p'] & -> & Hp)]. split; [|done].
    exists j. by apply elem_of_map_to_list.
  - intros [[j Hp] Howner]. split; [done|].
    exists (j, p). split; [done|]. by apply elem_of_map_to_list.
Qed.

(** X24: [GET /users/:id] of the second listing answers with the status of
    the first; when the user is found it sends the same user, and next to
    it the stored posts whose [userId] is the id of the user, all of them
    and no other; the database is untouched. *)
Theorem get_users_id_includes_posts fmt db id :
  Listing2.statusCode (Listing2.run (Listing2.get_users_id id) db).1
    = statusCode (Server.serve fmt db (Server.GET_users_id id)).1 ∧
  (Listing2.run (Listing2.get_users_id id) db).2 = db ∧
  ∀ u, payload (Server.serve fmt db (Server.GET_users_id id)).1 = User u →
       ∃ l, Listing2.payload (Listing2.run (Listing2.get_users_id id) db).1
              = Listing2.UserWithPosts (u, l) ∧
            ∀ p, p ∈ l ↔ (∃ j, posts db !! j = Some p) ∧ Post.userId p = User.id u.
Proof.
  rewrite get_users_id_unfold.
  unfold Listing2.run, Listing2.get_users_id, Include.user_findUnique,
    mbind, M_bind, await, known, invalid.
  destruct (intValue (Js.parseInt id)) as [i|]; try done.
  destruct (isInt32 i); try done.
  destruct (users db !! i) as [u|]; try done. simpl.
  split; [done|]. split; [done|]. intros u' [= <-].
  eexists. split; [done|]. apply postsOf_spec.
Qed.

(** X25: [GET /users] of the second listing sends every stored user, as
    many entries as the table has rows, each next to exactly its posts. *)
Theorem get_users_includes_posts db :
  ∃ l, Listing2.run Listing2.get_users db
         = ({| Listing2.statusCode := 200;
               Listing2.payload := Listing2.UsersWithPosts l |}, db) ∧
       length l = size (users db) ∧
       (∀ u, (∃ i, users db !! i = Some u) ↔ ∃ ps, (u, ps) ∈ l) ∧
       ∀ u ps, (u, ps) ∈ l →
               ∀ p, p ∈ ps ↔ (∃ j, posts db !! j = Some p) ∧ Post.userId p = User.id u.
Proof.
  exists (Include.withPosts db <$> (map_to_list (users db)).*2).
  split; [done|]. split; [by rewrite !length_fmap, length_map_to_list|]. split.
  - intros u. split.
    + intros [i Hi]. exists (Include.postsOf db (User.id u)).
      apply list_elem_of_fmap. exists u. split; [done|].
      apply list_elem_of_fmap. exists (i, u). split; [done|]. by apply elem_of_map_to_list.
    + intros [ps Hin]. apply list_elem_of_fmap in Hin as (u' & [= <- _] & Hu).
      apply list_elem_of_fmap in Hu as ([i u''] & -> & Hi).
      exists i. by apply elem_of_map_to_list.
  - intros u ps Hin p. apply list_elem_of_fmap in Hin as (u' & [= <- ->] & _).
    apply postsOf_spec.
Qed.

(** ** The demo application *)

Lemma append_bang_inj (s t : string) : s +:+ "!" = t +:+ "!" → s = t.
Proof.
  revert t. induction s as [|c s IH]; intros [|d t]; rewrite ?append_cons.
  - done.
  - intros [= <- Ht]. by destruct t.
  - intros [= -> Hs]. by destruct s.
  - intros [= -> Hst]. by rewrite (IH t).
Qed.

(** X26: the greeting is answered 200 when the name has at least 4
    characters and 400 otherwise; an accepted name can be read off the
    greeting, so no two names share one; and the database is not touched. *)
Theorem greeting db name :
  (Demo.route (Demo.GET_greet name) db).2 = db ∧
  (Demo.statusOf (Demo.route (Demo.GET_greet name) db).1 = 200 ↔
   (4 ≤ Z.of_nat (String.length name))%Z) ∧
  (Demo.statusOf (Demo.route (Demo.GET_greet name) db).1 = 400 ↔
   (Z.of_nat (String.length name) < 4)%Z) ∧
  ∀ name', (4 ≤ Z.of_nat (String.length name))%Z →
           (Demo.route (Demo.GET_greet name) db).1
             = (Demo.route (Demo.GET_greet name') db).1 →
           name = name'.
Proof.
  unfold Demo.route, Demo.userSchema. split; [by case_bool_decide|].
  split; [case_bool_decide; simpl; split; (done || lia)|].
  split; [case_bool_decide; simpl; split; (done || lia)|].
  intros name' Hlong. rewrite (bool_decide_eq_true_2 _ Hlong).
  case_bool_decide; [|done]. simpl. intros [= Heq]. by apply append_bang_inj.
Qed.

(** X27: the hook writes one line for every request, in the order of
    arrival and with the url of the request, whatever the route answers;
    and requests to the two routes without a query leave the database as
    it is. *)
Theorem hook_logs_every_request st reqs :
  Demo.console (Demo.serveAll st reqs)
    = (Demo.console st ++ ((λ r, "Request made to: " +:+ r.1) <$> reqs))%list ∧
  (Forall (λ r, ∀ body, r.2 ≠ Demo.POST_user body) reqs →
   Demo.db (Demo.serveAll st reqs) = Demo.db st).
Proof.
  revert st. induction reqs as [|[url req] reqs IH]; intros st.
  { split; [by rewrite app_nil_r|done]. }
  unfold Demo.serveAll. cbn [foldl fst snd fmap list_fmap].
  fold (Demo.serveAll (Demo.serve st url req).2 reqs).
  destruct (IH (Demo.serve st url req).2) as [Hconsole Hdb]. split.
  - rewrite Hconsole. unfold Demo.serve, Demo.onRequest.
    destruct (Demo.route req (Demo.db st)) as [a db']. simpl. by rewrite <-app_assoc.
  - intros Hall. apply Forall_cons in Hall as [Hreq Hreqs]. rewrite (Hdb Hreqs).
    unfold Demo.serve. simpl in Hreq.
    destruct req as [|name|body]; unfold Demo.route.
    + done.
    + by destruct (Demo.userSchema name).
    + by destruct (Hreq body).
Qed.

(** A greeting that is refused and one that is served. *)
Lemma hook_logs_every_request_witness :
  Demo.console
    (Demo.serveAll {| Demo.console := []; Demo.db := emptyDb |}
       [("/greet/Jo", Demo.GET_greet "Jo"); ("/greet/John", Demo.GET_greet "John")])
    = ["Request made to: /greet/Jo"; "Request made to: /greet/John"] ∧
  Demo.db
    (Demo.serveAll {| Demo.console := []; Demo.db := emptyDb |}
       [("/greet/Jo", Demo.GET_greet "Jo"); ("/greet/John", Demo.GET_greet "John")])
    = emptyDb.
Proof.
  destruct (hook_logs_every_request {| Demo.console := []; Demo.db := emptyDb |}
              [("/greet/Jo", Demo.GET_greet "Jo"); ("/greet/John", Demo.GET_greet "John")])
    as [Hconsole Hdb].
  split; [exact Hconsole|]. apply Hdb. by repeat constructor.
Defined.

(** X28: the route of the demo application stores any two strings as
    [name] and [email]: as long as the sequence of the ids has a value
    left, it answers 200 exactly when the body has a string for each and no
    stored user has the email, and the user is then stored under the next
    id of the sequence. *)
Theorem app_post_user_stores_any_strings db body :
  wf db →
  (User_id_seq db ≤ 2147483647)%Z →
  (statusCode (App.serve_post_user db body).1 = 200 ↔
   ∃ n e, Js.getProp body "name" = Js.Str n ∧ Js.getProp body "email" = Js.Str e ∧
          ∀ i v, users db !! i = Some v → User.email v ≠ e) ∧
  ∀ n e, Js.getProp body "name" = Js.Str n → Js.getProp body "email" = Js.Str e →
         (∀ i v, users db !! i = Some v → User.email v ≠ e) →
         let u := {| User.id := User_id_seq db; User.name := n; User.email := e |} in
         App.serve_post_user db body
         = ({| statusCode := 200; payload := Created "User created successfully" u |},
            with_users (next_User_id db) (<[User_id_seq db := u]> (users db))).
Proof.
  intros Hwf Hlast%exhausted_false.
  assert (∀ n e, Js.getProp body "name" = Js.Str n → Js.getProp body "email" = Js.Str e →
            (∀ i v, users db !! i = Some v → User.email v ≠ e) →
            App.serve_post_user db body
            = ({| statusCode := 200;
                  payload := Created "User created successfully"
                               {| User.id := User_id_seq db; User.name := n;
                                  User.email := e |} |},
               with_users (next_User_id db)
                 (<[User_id_seq db := {| User.id := User_id_seq db; User.name := n;
                                         User.email := e |}]> (users db)))) as Hstore.
  { intros n e Hn He Hfree. rewrite post_user_unfold, Hn, He. unfold user_create.
    rewrite Hlast.
    assert (emailTaken e None (users db) = false) as ->.
    { apply emailTaken_false. intros i v Hi Hv. by destruct (Hfree i v Hi). }
    rewrite bool_decide_eq_false_2.
    2:{ intros [v Hv]. apply (wf_fresh _ Hwf) in Hv. lia. }
    destruct body; try done. }
  split; [|exact Hstore]. split.
  - rewrite post_user_unfold. unfold user_create, known, invalid.
    rewrite Hlast.
    destruct body; try done;
      destruct (Js.getProp _ "name") as [| | | |n| |] eqn:Hn; try done;
      destruct (Js.getProp _ "email") as [| | | |e| |] eqn:He; try done;
      destruct (emailTaken e None (users db)) eqn:Htaken; try done;
      intros _; exists n, e; (split; [done|]); (split; [done|]);
      rewrite emailTaken_false in Htaken; intros i v Hi Hv;
      by specialize (Htaken i v Hi Hv).
  - intros (n & e & Hn & He & Hfree). by rewrite (Hstore n e Hn He Hfree).
Qed.

(** A name of two characters and an email without an at sign. *)
Lemma app_post_user_stores_any_strings_witness :
  App.serve_post_user emptyDb
    (Js.Obj {[ "name" := Js.Str "Jo"; "email" := Js.Str "nowhere" ]})
  = ({| statusCode := 200;
        payload := Created "User created successfully"
                     {| User.id := 1; User.name := "Jo"; User.email := "nowhere" |} |},
     with_users (next_User_id emptyDb)
       (<[1 := {| User.id := 1; User.name := "Jo"; User.email := "nowhere" |}]> ∅)).
Proof.
  apply (proj2 (app_post_user_stores_any_strings emptyDb
                  (Js.Obj {[ "name" := Js.Str "Jo"; "email" := Js.Str "nowhere" ]})
                  empty_wf ltac:(simpl; lia)) "Jo" "nowhere"); try reflexivity.
  intros i v Hi. simpl in Hi. by rewrite lookup_empty in Hi.
Defined.

(** ** Path parameters *)

(** X29: the numeral of a natural number is read back as its number
    value, which is the number itself below 2^53 and a rounded one from
    there on: 2^53 + 1 is read as 2^53. With a minus sign in front the
    numeral is read as the opposite, with a plus sign in front as without
    it; and white space in front of a parameter is not read. *)
Theorem signs_and_white_space (n : Z) :
  (0 ≤ n)%Z →
  Js.parseInt (Numeral.numeral n) = Js.toNumber n ∧
  ((n < 9007199254740992)%Z →
   Js.parseInt (Numeral.numeral n) = Js.Int n ∧
   Js.parseInt (String "-" (Numeral.numeral n)) = Js.Int (- n) ∧
   Js.parseInt (String "+" (Numeral.numeral n)) = Js.Int n) ∧
  Js.parseInt (String "-" (Numeral.numeral n)) = Js.negate (Js.toNumber n) ∧
  Js.parseInt (String "+" (Numeral.numeral n)) = Js.toNumber n ∧
  Js.parseInt (Numeral.numeral 9007199254740993) = Js.Int 9007199254740992 ∧
  ∀ c s, Js.isWhiteSpace c = true → Js.parseInt (String c s) = Js.parseInt s.
Proof.
  intros Hn.
  destruct (numeralFrom_spec (S (Z.to_nat n)) n) as (Hvalue & Hall & Hne); [lia|].
  fold (Numeral.numeral n) in *.
  assert (Js.stripPrefix (Numeral.numeral n) = (10, Numeral.numeral n)) as Hprefix
    by (by apply stripPrefix_decimal, stripPrefix_digits).
  assert (Js.digitsPrefix 10 (Numeral.numeral n) None = Some n) as Hdigits.
  { rewrite <-(append_empty_r (Numeral.numeral n)) at 1.
    rewrite digitsPrefix_decimal by done. simpl. by rewrite Hvalue. }
  assert (Js.parseInt (String "-" (Numeral.numeral n)) = Js.negate (Js.toNumber n)) as Hminus.
  { unfold Js.parseInt. simpl. by rewrite Hprefix, Hdigits. }
  assert (Js.parseInt (String "+" (Numeral.numeral n)) = Js.toNumber n) as Hplus.
  { unfold Js.parseInt. simpl. by rewrite Hprefix, Hdigits. }
  split; [by apply parseInt_numeral_toNumber|]. split; [|split; [done|split; [done|split]]].
  - intros Hsmall. rewrite Hminus, Hplus, parseInt_numeral, toNumber_small by lia. done.
  - rewrite parseInt_numeral_toNumber by lia. vm_compute. reflexivity.
  - intros c s Hc. unfold Js.parseInt. simpl. by rewrite Hc.
Qed.

Lemma signs_and_white_space_witness :
  Js.parseInt "42" = Js.Int 42 ∧ Js.parseInt "-42" = Js.Int (-42) ∧
  Js.parseInt "+42" = Js.Int 42.
Proof.
  destruct (signs_and_white_space 42) as (_ & Hsmall & _); [lia|].
  apply Hsmall. lia.
Defined.

(** X30: in every database that the server can reach the ids are positive,
    so a parameter that is read as zero or as a negative integer resolves
    to no user. When the integer fits the 32 bits of the column, [GET]
    answers 404 and [DELETE] answers 500 with the error of the ORM for a
    record that is not there; when it is below them, both answer 500. The
    database is unchanged. *)
Theorem nonpositive_ids_find_nothing fmt db id i :
  Server.reachable fmt db → Js.parseInt id = Js.Int i → (i ≤ 0)%Z →
  ((-2147483648 ≤ i)%Z →
   Server.serve fmt db (Server.GET_users_id id)
     = ({| statusCode := 404; payload := Message "User not found" |}, db) ∧
   Server.serve fmt db (Server.DELETE_users_id id)
     = ({| statusCode := 500;
           payload := Error (PrismaError (PrismaClientKnownRequestError P2025)) |}, db)) ∧
  ((i < -2147483648)%Z →
   statusCode (Server.serve fmt db (Server.GET_users_id id)).1 = 500 ∧
   (Server.serve fmt db (Server.GET_users_id id)).2 = db ∧
   statusCode (Server.serve fmt db (Server.DELETE_users_id id)).1 = 500 ∧
   (Server.serve fmt db (Server.DELETE_users_id id)).2 = db).
Proof.
  intros Hkeys%reachable_wfKeys Hid Hi.
  assert (users db !! i = None) as Hnone.
  { apply eq_None_not_Some. intros [u Hu]. apply (Keys.keys_users _ Hkeys) in Hu. lia. }
  split.
  - intros Hlow. assert (isInt32 i = true) as Hi32 by (apply isInt32_spec; lia). split.
    + by rewrite (get_users_id_int _ _ _ _ Hid Hi32), Hnone.
    + by rewrite delete_users_id_unfold, Hid, user_delete_int, Hnone.
  - intros Hlow.
    destruct (out_of_range_replies fmt db id Js.Undefined) as (H1 & H2 & _ & _ & H3 & H4);
      [|done].
    rewrite Hid. apply noInt32_Int, isInt32_false. lia.
Qed.

(** User -1 and user -2147483649. *)
Lemma nonpositive_ids_find_nothing_witness :
  Server.serve Samples.atSign Samples.oneUser (Server.GET_users_id "-1")
    = ({| statusCode := 404; payload := Message "User not found" |}, Samples.oneUser) ∧
  statusCode
    (Server.serve Samples.atSign Samples.oneUser (Server.GET_users_id "-2147483649")).1
  = 500.
Proof.
  assert (Server.reachable Samples.atSign Samples.oneUser) as Hreach.
  { change Samples.oneUser with
      (Server.serve Samples.atSign emptyDb (Server.POST_users Samples.john)).2.
    apply Server.reachable_serve, Server.reachable_empty. }
  split.
  - refine (proj1 (proj1 (nonpositive_ids_find_nothing Samples.atSign Samples.oneUser
                            "-1" (-1) Hreach eq_refl _) _)); lia.
  - refine (proj1 (proj2 (nonpositive_ids_find_nothing Samples.atSign Samples.oneUser
                            "-2147483649" (-2147483649) Hreach eq_refl _) _)); lia.
Defined.
